(** * A shallow embedding of the weather dashboard component

    Source: [src/weatherapp.tsx] (the [WeatherApp] React component, its two
    render helpers [WeatherDetail] and [ForecastDay], and the payload
    interfaces [WeatherData] and [ForecastData]).

    The component is modelled as a transition system.  A configuration holds
    the six [useState] fields, the suspended asynchronous frames (a pending
    geolocation request, a [handleSearch] waiting for the geocoder, a
    [fetchWeather] waiting on [Promise.all]) and the chronological trace of
    every state-setter call and every outgoing request.  Each stretch of code
    between two suspension points is a program that transforms the
    configuration; the render body is a function from the state to a view.

    The setter calls made by one resumption are batched into a single render,
    so the states between two steps are the states a render can see.

    JSON numbers are finite, so a JavaScript number received from the provider
    is modelled as a rational ([Q]); [Math.round] is then exact. *)

From Stdlib Require Import ZArith QArith Qround String Ascii List Bool Lia.
From Stdlib Require Import DecimalString Lqa.
Import ListNotations.

Local Open Scope string_scope.
Local Open Scope list_scope.

(** ** Payload interfaces *)

(** [unit]'s type, ['metric' | 'imperial']. *)
Inductive UnitSystem := metric | imperial.

Definition UnitSystem_eqb (a b : UnitSystem) : bool :=
  match a, b with
  | metric, metric | imperial, imperial => true
  | _, _ => false
  end.

(** The string interpolated for [${unit}]. *)
Definition UnitSystem_str (u : UnitSystem) : string :=
  match u with metric => "metric" | imperial => "imperial" end.

Module Main.
Record t := mk { temp : Q; feels_like : Q; humidity : Q; pressure : Q }.
End Main.

Module Condition.
Record t := mk { description : string; icon : string }.
End Condition.

Module Wind.
Record t := mk { speed : Q; deg : Q }.
End Wind.

Module WeatherData.
Record t := mk {
  dt : Q;
  main : Main.t;
  weather : list Condition.t;
  wind : Wind.t;
  name : string
}.
End WeatherData.

Module City.
Record t := mk { name : string; country : string }.
End City.

Module ForecastData.
Record t := mk { list : Datatypes.list WeatherData.t; city : City.t }.
End ForecastData.

(** One record of the geocoder's answer; only [lat] and [lon] are read. *)
Module GeoEntry.
Record t := mk { lat : Q; lon : Q }.
End GeoEntry.

(** ** Component state: the six [useState] cells (lines 8-13) *)

Module State.
Record t := mk {
  weather : option WeatherData.t;
  forecast : option ForecastData.t;
  location : string;
  unit : UnitSystem;
  loading : bool;
  error : string
}.

(** The initial values given to [useState]. *)
Definition initial : t :=
  {| weather := None; forecast := None; location := "";
     unit := metric; loading := false; error := "" |}.
End State.

(** JavaScript truthiness of a string: every string but the empty one. *)
Definition truthy (s : string) : bool :=
  match s with EmptyString => false | String _ _ => true end.

(** ** Requests, setter calls and suspended frames *)

(** A piece of text built by a template or by JSX.  [Lit] is literal or
    interpolated string text, taken as it is; [Int] is an integral number
    such as a result of [Math.round]; [Num] is any other interpolated
    number.  How a number is printed is left to the JavaScript engine. *)
Inductive Piece :=
| Lit (s : string)
| Int (n : Z)
| Num (x : Q).

Definition Text := list Piece.

(** A URL is the text its template literal builds: nothing is encoded or
    escaped on the way. *)
Definition Url := Text.

(** The template of line 21. *)
Definition weather_url (lat lon : Q) (units : UnitSystem) (appid : string)
  : Url :=
  [Lit "https://api.openweathermap.org/data/2.5/weather?lat="; Num lat;
   Lit "&lon="; Num lon; Lit "&units="; Lit (UnitSystem_str units);
   Lit "&appid="; Lit appid].

(** The template of line 22. *)
Definition forecast_url (lat lon : Q) (units : UnitSystem) (appid : string)
  : Url :=
  [Lit "https://api.openweathermap.org/data/2.5/forecast?lat="; Num lat;
   Lit "&lon="; Num lon; Lit "&units="; Lit (UnitSystem_str units);
   Lit "&appid="; Lit appid].

(** The template of line 40; [q] is the search text as typed. *)
Definition geo_direct_url (q : string) (appid : string) : Url :=
  [Lit "https://api.openweathermap.org/geo/1.0/direct?q="; Lit q;
   Lit "&limit=1&appid="; Lit appid].

Arguments weather_url : simpl never.
Arguments forecast_url : simpl never.
Arguments geo_direct_url : simpl never.

(** Everything the component does to the outside or to its own state. *)
Inductive Op :=
| OpSetWeather (w : WeatherData.t)
| OpSetForecast (f : ForecastData.t)
| OpSetLocation (s : string)
| OpSetUnit (u : UnitSystem)
| OpSetLoading (b : bool)
| OpSetError (msg : string)
| OpAxiosGet (u : Url)
| OpGetCurrentPosition
| OpPreventDefault.

(** Who is waiting for [fetchWeather]: the geolocation callback calls it and
    drops the promise (line 60), [handleSearch] awaits it (line 49). *)
Inductive Caller := ByEffect | BySearch.

(** A frame suspended until the outside world answers.  A closure captures
    the [unit] of the render that created it, so the frames carry it. *)
Inductive Task :=
| PositionCallbacks (unit : UnitSystem)
    (* the two callbacks handed to getCurrentPosition, lines 59-62 *)
| HandleSearchAwait (unit : UnitSystem)
    (* handleSearch at [await axios.get(...)], line 39 *)
| FetchWeatherAwait (caller : Caller).
    (* fetchWeather at [await Promise.all(...)], line 20 *)

Record Config := mkConfig {
  st : State.t;
  pending : list Task;
  trace : list Op
}.

(** The effect of one setter call on the state; requests leave it alone. *)
Definition apply_op (o : Op) (s : State.t) : State.t :=
  match o with
  | OpSetWeather w =>
      State.mk (Some w) (State.forecast s) (State.location s) (State.unit s)
               (State.loading s) (State.error s)
  | OpSetForecast f =>
      State.mk (State.weather s) (Some f) (State.location s) (State.unit s)
               (State.loading s) (State.error s)
  | OpSetLocation l =>
      State.mk (State.weather s) (State.forecast s) l (State.unit s)
               (State.loading s) (State.error s)
  | OpSetUnit u =>
      State.mk (State.weather s) (State.forecast s) (State.location s) u
               (State.loading s) (State.error s)
  | OpSetLoading b =>
      State.mk (State.weather s) (State.forecast s) (State.location s)
               (State.unit s) b (State.error s)
  | OpSetError e =>
      State.mk (State.weather s) (State.forecast s) (State.location s)
               (State.unit s) (State.loading s) e
  | OpAxiosGet _ | OpGetCurrentPosition | OpPreventDefault => s
  end.

(** ** Programs *)

Definition Prog := Config -> Config.

Definition skip : Prog := fun c => c.

Definition seq (p q : Prog) : Prog := fun c => q (p c).

Notation "p ;; q" := (seq p q) (at level 61, right associativity).

(** Perform one operation: log it and apply it. *)
Definition emit (o : Op) : Prog :=
  fun c => mkConfig (apply_op o (st c)) (pending c) (trace c ++ [o]).

(** Park a frame until its answer arrives. *)
Definition suspend (t : Task) : Prog :=
  fun c => mkConfig (st c) (pending c ++ [t]) (trace c).

Definition setWeather (w : WeatherData.t) : Prog := emit (OpSetWeather w).
Definition setForecast (f : ForecastData.t) : Prog := emit (OpSetForecast f).
Definition setLocation (s : string) : Prog := emit (OpSetLocation s).
Definition setUnit (u : UnitSystem) : Prog := emit (OpSetUnit u).
Definition setLoading (b : bool) : Prog := emit (OpSetLoading b).
Definition setError (msg : string) : Prog := emit (OpSetError msg).
Definition axios_get (u : Url) : Prog := emit (OpAxiosGet u).

(** What a request settles to. *)
Inductive Response (A : Type) :=
| Fulfilled (data : A)
| Rejected.
Arguments Fulfilled {A} data.
Arguments Rejected {A}.

(** [Promise.all] of the two requests: both payloads, or a rejection as soon
    as one of them rejects. *)
Definition Promise_all {A B : Type} (ra : Response A) (rb : Response B)
  : option (A * B) :=
  match ra, rb with
  | Fulfilled a, Fulfilled b => Some (a, b)
  | _, _ => None
  end.

(** ** The view *)

(** [Math.round]: the nearest integer, a tie going towards plus infinity. *)
Definition Math_round (x : Q) : Z := Qfloor (x + (1 # 2))%Q.

(** The decimal digits of an integer. *)
Definition Z_to_string (n : Z) : string :=
  NilZero.string_of_int (Z.to_int n).

(** [Number.MAX_SAFE_INTEGER], 2^53 - 1. *)
Definition MAX_SAFE_INTEGER : Z := 9007199254740991.

(** How JavaScript prints an integral number: its decimal digits as long
    as it is a safe integer.  Beyond that the engine prints the shortest
    digits that read back as the same double, and an exponent from 1e21 on;
    that range is left out. *)
Definition Number_toString (n : Z) : option string :=
  if (Z.abs n <=? MAX_SAFE_INTEGER)%Z then Some (Z_to_string n) else None.

(** The characters of a text, when it interpolates only safe integers. *)
Fixpoint Text_string (t : Text) : option string :=
  match t with
  | [] => Some ""
  | p :: t' =>
      match p, Text_string t' with
      | Lit s, Some r => Some (s ++ r)%string
      | Int n, Some r =>
          match Number_toString n with
          | Some digits => Some (digits ++ r)%string
          | None => None
          end
      | _, _ => None
      end
  end.

(** The ternary [unit === 'metric' ? 'C' : 'F'] of lines 90, 113, 123, 174. *)
Definition unit_letter (unit : UnitSystem) : string :=
  match unit with metric => "C" | imperial => "F" end.

(** The ternary [unit === 'metric' ? 'm/s' : 'mph'] of line 133. *)
Definition speed_unit (unit : UnitSystem) : string :=
  match unit with metric => "m/s" | imperial => "mph" end.

(** [{Math.round(t)}°{unit === 'metric' ? 'C' : 'F'}]. *)
Definition temperature_text (t : Q) (unit : UnitSystem) : Text :=
  [Int (Math_round t); Lit "°"; Lit (unit_letter unit)].

Inductive Icon := SunIcon | CloudIcon | WindSvg.

(** What [WeatherDetail] (lines 153-161) puts on screen. *)
Record DetailView := mkDetail {
  detail_icon : Icon;
  detail_label : string;
  detail_value : Text
}.

Definition WeatherDetail (icon : Icon) (label : string) (value : Text)
  : DetailView := mkDetail icon label value.

(** What [ForecastDay] (lines 163-178) puts on screen.  The weekday label is
    kept as the millisecond timestamp given to [Date]; its wording depends on
    the browser's time zone. *)
Record TileView := mkTile {
  tile_key : Q;
  tile_date_ms : Q;
  tile_img_src : string;
  tile_temp : Text;
  tile_description : string
}.

(** [ForecastDay].  Reading [data.weather[0].icon] on an empty array throws,
    which is the [None]. *)
Definition ForecastDay (data : WeatherData.t) (unit : UnitSystem)
  : option TileView :=
  match WeatherData.weather data with
  | [] => None
  | w0 :: _ =>
      Some (mkTile (WeatherData.dt data)
                   (WeatherData.dt data * 1000)%Q
                   ("https://openweathermap.org/img/wn/" ++ Condition.icon w0
                      ++ "@2x.png")%string
                   (temperature_text (Main.temp (WeatherData.main data)) unit)
                   (Condition.description w0))
  end.

(** [xs.map(f)] for an [f] that may throw. *)
Fixpoint map_throwing {A B : Type} (f : A -> option B) (xs : list A)
  : option (list B) :=
  match xs with
  | [] => Some []
  | x :: xs' =>
      match f x, map_throwing f xs' with
      | Some y, Some ys => Some (y :: ys)
      | _, _ => None
      end
  end.

(** [xs.slice(0, n)]. *)
Definition slice0 {A : Type} (n : nat) (xs : list A) : list A := firstn n xs.

Record FormView := mkForm {
  input_value : string;
  unit_button : Text
}.

(** The block guarded by [weather && forecast], lines 95-147. *)
Record DashView := mkDash {
  heading : string;
  img_src : string;
  temperature : Text;
  description : string;
  details : list DetailView;
  tiles : list TileView
}.

Inductive View :=
| BeatLoader
| ErrorDiv (msg : string)
| Page (form : FormView) (dash : option DashView).

Definition dashboard (weather : WeatherData.t) (forecast : ForecastData.t)
    (unit : UnitSystem) : option DashView :=
  match WeatherData.weather weather,
        map_throwing (fun day => ForecastDay day unit)
                     (slice0 5 (ForecastData.list forecast)) with
  | w0 :: _, Some days =>
      Some (mkDash
        (WeatherData.name weather ++ ", "
           ++ City.country (ForecastData.city forecast))%string
        ("https://openweathermap.org/img/wn/" ++ Condition.icon w0
           ++ "@4x.png")%string
        (temperature_text (Main.temp (WeatherData.main weather)) unit)
        (Condition.description w0)
        [ WeatherDetail SunIcon "Feels like"
            (temperature_text (Main.feels_like (WeatherData.main weather))
               unit);
          WeatherDetail CloudIcon "Humidity"
            [Num (Main.humidity (WeatherData.main weather)); Lit "%"];
          WeatherDetail WindSvg "Wind Speed"
            [Num (Wind.speed (WeatherData.wind weather)); Lit " ";
             Lit (speed_unit unit)] ]
        days)
  | _, _ => None
  end.

(** The render body of [WeatherApp], lines 66-150.  [None] is a render that
    throws. *)
Definition WeatherApp (s : State.t) : option View :=
  if State.loading s then Some BeatLoader
  else if truthy (State.error s) then Some (ErrorDiv (State.error s))
  else
    let form := mkForm (State.location s)
                       [Lit "°"; Lit (unit_letter (State.unit s))] in
    match State.weather s, State.forecast s with
    | Some weather, Some forecast =>
        match dashboard weather forecast (State.unit s) with
        | Some d => Some (Page form (Some d))
        | None => None
        end
    | _, _ => Some (Page form None)
    end.

(** The form, and with it every handler of the user, is on screen. *)
Definition interactive (s : State.t) : bool :=
  match WeatherApp s with
  | Some (Page _ _) => true
  | _ => false
  end.

Section Component.

(** [import.meta.env.VITE_OPENWEATHER_API_KEY], line 15. *)
Variable API_KEY : string.

(** [fetchWeather], lines 17-23: up to the await. *)
Definition fetchWeather (unit : UnitSystem) (lat lon : Q) (caller : Caller)
  : Prog :=
  setLoading true ;;
  axios_get (weather_url lat lon unit API_KEY) ;;
  axios_get (forecast_url lat lon unit API_KEY) ;;
  suspend (FetchWeatherAwait caller).

(** [fetchWeather], lines 24-30: after the await, with the catch and the
    finally clause. *)
Definition fetchWeather_resume
    (r : option (WeatherData.t * ForecastData.t)) : Prog :=
  match r with
  | Some (weatherRes, forecastRes) =>
      setWeather weatherRes ;; setForecast forecastRes
  | None => setError "Failed to fetch weather data"
  end ;;
  setLoading false.

(** [handleSearch], lines 33-41: up to the await. *)
Definition handleSearch (location : string) (unit : UnitSystem) : Prog :=
  emit OpPreventDefault ;;
  if truthy location then
    setLoading true ;;
    axios_get (geo_direct_url location API_KEY) ;;
    suspend (HandleSearchAwait unit)
  else skip.

(** [handleSearch], lines 43-54: after the geocoder answered.  On a match
    the frame stays suspended inside [fetchWeather]. *)
Definition handleSearch_resume (unit : UnitSystem)
    (geoRes : Response (list GeoEntry.t)) : Prog :=
  match geoRes with
  | Fulfilled [] => setError "Location not found" ;; setLoading false
  | Fulfilled (g :: _) =>
      fetchWeather unit (GeoEntry.lat g) (GeoEntry.lon g) BySearch
  | Rejected => setError "Failed to fetch location" ;; setLoading false
  end.

(** [handleSearch], line 53: the finally clause once the awaited
    [fetchWeather] has returned (it never rejects). *)
Definition handleSearch_finally : Prog := setLoading false.

(** The effect body, lines 58-63, in the closure of a render with [unit]. *)
Definition useEffect (unit : UnitSystem) : Prog :=
  emit OpGetCurrentPosition ;; suspend (PositionCallbacks unit).

(** The error callback of line 62. *)
Definition onPositionError : Prog :=
  setError "Geolocation blocked. Please enable it or search manually.".

(** After a render, the effect runs again when its dependency [unit]
    differs from the previous render's. *)
Definition rerender (prev : UnitSystem) : Prog :=
  fun c =>
    if UnitSystem_eqb prev (State.unit (st c)) then c
    else useEffect (State.unit (st c)) c.

(** The unit button's handler, line 87, and the render that follows. *)
Definition onClickUnit (unit : UnitSystem) : Prog :=
  setUnit (match unit with metric => imperial | imperial => metric end) ;;
  rerender unit.

(** ** The transition system *)

(** What can happen to a mounted component. *)
Inductive Event :=
| Change (value : string)
    (* typing in the input: onChange, line 75 *)
| SubmitForm
    (* onSubmit, line 71 *)
| ClickUnit
    (* onClick of the unit button, line 87 *)
| PositionSuccess (i : nat) (latitude longitude : Q)
| PositionError (i : nat)
| GeoResponse (i : nat) (geoRes : Response (list GeoEntry.t))
| WeatherResponses (i : nat) (weatherRes : Response WeatherData.t)
                   (forecastRes : Response ForecastData.t).

Fixpoint remove_nth {A : Type} (i : nat) (l : list A) : list A :=
  match i, l with
  | _, [] => []
  | O, _ :: l' => l'
  | S i', x :: l' => x :: remove_nth i' l'
  end.

(** Frame [i] leaves the waiting list: its answer has arrived. *)
Definition wake (i : nat) : Prog :=
  fun c => mkConfig (st c) (remove_nth i (pending c)) (trace c).

(** One event.  The user's events need the form on screen; an answer needs
    the frame that waits for it.  Handlers read the state of the latest
    render. *)
Definition step (c : Config) (e : Event) : option Config :=
  match e with
  | Change value =>
      if interactive (st c) then Some (setLocation value c) else None
  | SubmitForm =>
      if interactive (st c)
      then Some (handleSearch (State.location (st c)) (State.unit (st c)) c)
      else None
  | ClickUnit =>
      if interactive (st c)
      then Some (onClickUnit (State.unit (st c)) c)
      else None
  | PositionSuccess i latitude longitude =>
      match nth_error (pending c) i with
      | Some (PositionCallbacks unit) =>
          Some ((wake i ;; fetchWeather unit latitude longitude ByEffect) c)
      | _ => None
      end
  | PositionError i =>
      match nth_error (pending c) i with
      | Some (PositionCallbacks _) => Some ((wake i ;; onPositionError) c)
      | _ => None
      end
  | GeoResponse i geoRes =>
      match nth_error (pending c) i with
      | Some (HandleSearchAwait unit) =>
          Some ((wake i ;; handleSearch_resume unit geoRes) c)
      | _ => None
      end
  | WeatherResponses i weatherRes forecastRes =>
      match nth_error (pending c) i with
      | Some (FetchWeatherAwait caller) =>
          Some ((wake i ;;
                 fetchWeather_resume (Promise_all weatherRes forecastRes) ;;
                 match caller with
                 | BySearch => handleSearch_finally
                 | ByEffect => skip
                 end) c)
      | _ => None
      end
  end.

Fixpoint run (c : Config) (es : list Event) : option Config :=
  match es with
  | [] => Some c
  | e :: es' =>
      match step c e with
      | Some c' => run c' es'
      | None => None
      end
  end.

(** The component right after its first render: the effect has run once. *)
Definition mount : Config :=
  useEffect (State.unit State.initial) (mkConfig State.initial [] []).

Definition reachable (c : Config) : Prop :=
  exists es, run mount es = Some c.

(** The requests a stretch of trace sent out. *)
Fixpoint requests (ops : list Op) : list Url :=
  match ops with
  | [] => []
  | OpAxiosGet u :: ops' => u :: requests ops'
  | _ :: ops' => requests ops'
  end.

(** The error messages a stretch of trace set. *)
Fixpoint errors_set (ops : list Op) : list string :=
  match ops with
  | [] => []
  | OpSetError msg :: ops' => msg :: errors_set ops'
  | _ :: ops' => errors_set ops'
  end.

(** Whether a stretch of trace wrote the weather or the forecast cell. *)
Fixpoint writes_data (ops : list Op) : bool :=
  match ops with
  | [] => false
  | (OpSetWeather _ | OpSetForecast _) :: _ => true
  | _ :: ops' => writes_data ops'
  end.

End Component.

(** ** Well-formed payloads *)

(** The data model asks for a non-empty sequence of conditions. *)
Definition well_formed (w : WeatherData.t) : bool :=
  match WeatherData.weather w with
  | [] => false
  | _ :: _ => true
  end.

(** The suffix the specification names for each unit system. *)
Definition spec_suffix (unit : UnitSystem) : string :=
  match unit with metric => "°C" | imperial => "°F" end.

(** ** Vocabulary of the properties *)

(** The two call sites of [fetchWeather] (line 60 in the geolocation success
    callback, line 49 in [handleSearch]): the event that reaches one, with the
    closure's [unit], the coordinates passed and the caller. *)
Definition fetch_invocation (c : Config) (e : Event)
  : option (nat * UnitSystem * Q * Q * Caller) :=
  match e with
  | PositionSuccess i latitude longitude =>
      match nth_error (pending c) i with
      | Some (PositionCallbacks unit) =>
          Some (i, unit, latitude, longitude, ByEffect)
      | _ => None
      end
  | GeoResponse i (Fulfilled (g :: _)) =>
      match nth_error (pending c) i with
      | Some (HandleSearchAwait unit) =>
          Some (i, unit, GeoEntry.lat g, GeoEntry.lon g, BySearch)
      | _ => None
      end
  | _ => None
  end.

(** The other unit system. *)
Definition other_unit (unit : UnitSystem) : UnitSystem :=
  match unit with metric => imperial | imperial => metric end.

(** Both payloads are present, or neither is. *)
Definition both_or_neither (s : State.t) : Prop :=
  State.weather s = None <-> State.forecast s = None.

(** The calls a completed [fetchWeather] makes on success, with the finally
    clause of an awaiting [handleSearch]. *)
Definition success_ops (w : WeatherData.t) (f : ForecastData.t)
    (caller : Caller) : list Op :=
  [OpSetWeather w; OpSetForecast f; OpSetLoading false] ++
  match caller with BySearch => [OpSetLoading false] | ByEffect => [] end.

(** The events of a session in which the user never submits the form and the
    browser never yields a position. *)
Definition without_search_or_position (e : Event) : bool :=
  match e with
  | SubmitForm | PositionSuccess _ _ _ => false
  | _ => true
  end.

Definition is_PositionError (e : Event) : bool :=
  match e with PositionError _ => true | _ => false end.

Definition is_PositionCallbacks (t : Task) : bool :=
  match t with PositionCallbacks _ => true | _ => false end.

(** What holds throughout such a session. *)
Definition idle_without_data (c : Config) : Prop :=
  State.loading (st c) = false /\
  State.weather (st c) = None /\
  State.forecast (st c) = None /\
  requests (trace c) = [] /\
  forallb is_PositionCallbacks (pending c) = true /\
  (State.error (st c) = "" \/
   State.error (st c)
   = "Geolocation blocked. Please enable it or search manually.").



(** ** Sample payloads *)

Definition sample_conditions : list Condition.t :=
  [Condition.mk "scattered clouds" "03d"].

Definition sample_day (dt temp : Q) : WeatherData.t :=
  WeatherData.mk dt (Main.mk temp (temp - 1) 62 1015) sample_conditions
                 (Wind.mk (31 # 10) 140) "Nairobi".

(** A current reading of 20.5 degrees. *)
Definition sample_weather : WeatherData.t := sample_day 1700000000 (41 # 2).

(** Six forecast intervals, three hours apart. *)
Definition sample_forecast : ForecastData.t :=
  ForecastData.mk
    [sample_day 1700010800 21; sample_day 1700021600 (47 # 2);
     sample_day 1700032400 (79 # 4); sample_day 1700043200 18;
     sample_day 1700054000 (33 # 2); sample_day 1700064800 16]
    (City.mk "Nairobi" "KE").

Definition sample_lat : Q := - (12921 # 10000).
Definition sample_lon : Q := 368219 # 10000.

Definition sample_key : string := "demo-key".

(** Both payloads on screen, nothing in flight. *)
Definition sample_ready : State.t :=
  State.mk (Some sample_weather) (Some sample_forecast) "" metric false "".

(** The first render, then a search for "Nowhereville" waiting for the
    geocoder. *)
Definition sample_searching : Config :=
  Eval vm_compute in
    match run sample_key mount [Change "Nowhereville"; SubmitForm] with
    | Some c => c
    | None => mount
    end.

(** The first render, a position and a successful metric fetch. *)
Definition sample_shown : Config :=
  Eval vm_compute in
    match run sample_key mount
              [PositionSuccess 0 sample_lat sample_lon;
               WeatherResponses 0 (Fulfilled sample_weather)
                                  (Fulfilled sample_forecast)] with
    | Some c => c
    | None => mount
    end.

(** A second combined fetch, in the other unit, in flight over the data of
    [sample_shown]. *)
Definition sample_fetching : Config :=
  Eval vm_compute in
    match run sample_key sample_shown
              [ClickUnit; PositionSuccess 0 sample_lat sample_lon] with
    | Some c => c
    | None => mount
    end.

(** ** Vocabulary of the further properties *)

(** The four literals [setError] is called with (lines 27, 44, 51, 62). *)
Definition error_messages : list string :=
  ["Failed to fetch weather data";
   "Location not found";
   "Failed to fetch location";
   "Geolocation blocked. Please enable it or search manually."].

(** A frame that waits for the provider: a search or a combined fetch. *)
Definition is_provider_wait (t : Task) : bool :=
  match t with
  | HandleSearchAwait _ | FetchWeatherAwait _ => true
  | PositionCallbacks _ => false
  end.

Definition is_OpGetCurrentPosition (o : Op) : bool :=
  match o with OpGetCurrentPosition => true | _ => false end.

Definition is_OpSetUnit (o : Op) : bool :=
  match o with OpSetUnit _ => true | _ => false end.

(** How many operations of a trace satisfy [p]. *)
Definition count_ops (p : Op -> bool) (ops : list Op) : nat :=
  length (filter p ops).

(** A request list made of whole blocks: the geocoding template filled with
    a non-empty text, or the weather template directly followed by the
    forecast template filled with the same coordinates and unit; [key] is
    the text put after [appid=] in each. *)
Inductive request_blocks (key : string) : list Url -> Prop :=
| blocks_nil : request_blocks key []
| blocks_geo (q : string) (rest : list Url) :
    truthy q = true ->
    request_blocks key rest ->
    request_blocks key (geo_direct_url q key :: rest)
| blocks_fetch (lat lon : Q) (units : UnitSystem) (rest : list Url) :
    request_blocks key rest ->
    request_blocks key (weather_url lat lon units key
                          :: forecast_url lat lon units key :: rest).

(** ** Further samples *)

(** The first render with "Nairobi" typed into the input. *)
Definition sample_typed : Config :=
  Eval vm_compute in
    match run sample_key mount [Change "Nairobi"] with
    | Some c => c
    | None => mount
    end.

(** One unit change, then the first position request fails while the second
    is still open. *)
Definition sample_blocked : Config :=
  Eval vm_compute in
    match run sample_key mount [ClickUnit; PositionError 0] with
    | Some c => c
    | None => mount
    end.

(** One unit change and both positions delivered: two combined fetches in
    flight, the first in metric, the second in imperial. *)
Definition sample_two_fetches : Config :=
  Eval vm_compute in
    match run sample_key mount
              [ClickUnit; PositionSuccess 0 sample_lat sample_lon;
               PositionSuccess 0 sample_lat sample_lon] with
    | Some c => c
    | None => mount
    end.

(** A reading whose list of conditions is empty. *)
Definition sample_bare_day : WeatherData.t :=
  WeatherData.mk 1700075600 (Main.mk 15 14 70 1016) [] (Wind.mk 2 90) "".

(** A forecast of two intervals. *)
Definition sample_short_forecast : ForecastData.t :=
  ForecastData.mk [sample_day 1700010800 21; sample_day 1700021600 (47 # 2)]
                  (City.mk "Nairobi" "KE").

(** A forecast whose third interval has no condition entry. *)
Definition sample_broken_forecast : ForecastData.t :=
  ForecastData.mk
    [sample_day 1700010800 21; sample_day 1700021600 (47 # 2);
     sample_bare_day]
    (City.mk "Nairobi" "KE").

(** ** Frames over time *)

(** The frame an event answers, if it answers one. *)
Definition answered (e : Event) : option nat :=
  match e with
  | PositionSuccess i _ _ | PositionError i | GeoResponse i _
  | WeatherResponses i _ _ => Some i
  | Change _ | SubmitForm | ClickUnit => None
  end.

(** Where the frame waiting at place [j] waits after event [e]: nowhere when
    [e] answers it, one place down when [e] answers an earlier frame. *)
Definition frame_after (j : nat) (e : Event) : option nat :=
  match answered e with
  | Some i =>
      if Nat.eqb i j then None
      else if Nat.ltb i j then Some (pred j) else Some j
  | None => Some j
  end.

Fixpoint frame_after_run (j : nat) (es : list Event) : option nat :=
  match es with
  | [] => Some j
  | e :: es' =>
      match frame_after j e with
      | Some j' => frame_after_run j' es'
      | None => None
      end
  end.

Definition is_ClickUnit (e : Event) : bool :=
  match e with ClickUnit => true | _ => false end.

(** Every combined fetch sends the unit the state holds when it is sent. *)
Definition fetch_sends_active_unit (API_KEY : string) : Prop :=
  forall c e i unit lat lon caller c1,
    reachable API_KEY c ->
    fetch_invocation c e = Some (i, unit, lat, lon, caller) ->
    step API_KEY c e = Some c1 ->
    requests (trace c1)
    = requests (trace c) ++
      [weather_url lat lon (State.unit (st c)) API_KEY;
       forecast_url lat lon (State.unit (st c)) API_KEY].

(** A text that shows the rounded figure of the reading [t] under [unit]:
    first the number [Math.round(t)], then pieces that read as the suffix of
    the unit; when that number is a safe integer, the whole text is its
    decimal digits followed by the suffix. *)
Definition shows_rounded (txt : Text) (t : Q) (unit : UnitSystem) : Prop :=
  exists rest,
    txt = Int (Math_round t) :: rest /\
    Text_string rest = Some (spec_suffix unit) /\
    ((Z.abs (Math_round t) <= MAX_SAFE_INTEGER)%Z ->
     Text_string txt
     = Some (Z_to_string (Math_round t) ++ spec_suffix unit)%string).

(** One unit change from the first render; the position request of the
    first render is still open. *)
Definition sample_clicked : Config :=
  Eval vm_compute in
    match run sample_key mount [ClickUnit] with
    | Some c => c
    | None => mount
    end.

(** The unit a waiting closure carries. *)
Definition frame_unit (t : Task) : option UnitSystem :=
  match t with
  | PositionCallbacks unit | HandleSearchAwait unit => Some unit
  | FetchWeatherAwait _ => None
  end.

(** * Properties *)

(** ** Trace bookkeeping *)

Lemma requests_app (xs ys : list Op) :
  requests (xs ++ ys) = requests xs ++ requests ys.
Proof.
  induction xs as [|o xs IH]; simpl; [reflexivity|].
  destruct o; simpl; rewrite ?IH; reflexivity.
Qed.

Lemma errors_set_app (xs ys : list Op) :
  errors_set (xs ++ ys) = errors_set xs ++ errors_set ys.
Proof.
  induction xs as [|o xs IH]; simpl; [reflexivity|].
  destruct o; simpl; rewrite ?IH; reflexivity.
Qed.

Lemma truthy_true_iff (s : string) : truthy s = true <-> s <> "".
Proof.
  destruct s; simpl; split; intro H; congruence.
Qed.

Lemma nth_error_snoc {A : Type} (l : list A) (x : A) :
  nth_error (l ++ [x]) (length l) = Some x.
Proof.
  rewrite nth_error_app2 by lia.
  rewrite Nat.sub_diag. reflexivity.
Qed.

Section Properties.

Variable API_KEY : string.

Local Abbreviation step := (step API_KEY).
Local Abbreviation run := (run API_KEY).
Local Abbreviation reachable := (reachable API_KEY).

(** ** The combined fetch *)

(** C1.  When the join of the two requests waits in frame [i] and either
    request is rejected, the completion step calls neither [setWeather] nor
    [setForecast], so both cells keep their prior value, and it sets exactly
    one error message, the generic fetch failure. *)
Theorem fetch_failure_keeps_data_and_sets_one_error
    (c : Config) (i : nat) (caller : Caller)
    (weatherRes : Response WeatherData.t)
    (forecastRes : Response ForecastData.t) :
  nth_error (pending c) i = Some (FetchWeatherAwait caller) ->
  weatherRes = Rejected \/ forecastRes = Rejected ->
  exists c' ops,
    step c (WeatherResponses i weatherRes forecastRes) = Some c' /\
    trace c' = trace c ++ ops /\
    writes_data ops = false /\
    errors_set ops = ["Failed to fetch weather data"] /\
    requests ops = [] /\
    State.weather (st c') = State.weather (st c) /\
    State.forecast (st c') = State.forecast (st c) /\
    State.error (st c') = "Failed to fetch weather data" /\
    State.loading (st c') = false.
Proof.
  intros Hi Hrej.
  assert (Hall : Promise_all weatherRes forecastRes = None).
  { destruct Hrej as [-> | ->]; [reflexivity|].
    destruct weatherRes; reflexivity. }
  unfold step. rewrite Hi, Hall.
  destruct caller; eexists; eexists; (split; [reflexivity|]);
    cbn; rewrite <- ?app_assoc; cbn;
    (split; [reflexivity|]); cbn; repeat split; reflexivity.
Qed.

(** ** The render selector *)

(** C2.  Whatever the other cells hold, a set loading flag shows the
    loading indicator, and with the flag clear a set (non-empty) error
    message shows that message. *)
Theorem render_loading_before_error_before_data (s : State.t) :
  (State.loading s = true -> WeatherApp s = Some BeatLoader) /\
  (State.loading s = false -> truthy (State.error s) = true ->
   WeatherApp s = Some (ErrorDiv (State.error s))).
Proof.
  unfold WeatherApp. split.
  - intros ->. reflexivity.
  - intros -> ->. reflexivity.
Qed.

(** ** Manual search *)

(** C4.  A search that is submitted sends only the geocoding request; when
    the geocoder answers with zero matches, the waiting [handleSearch]
    sets "Location not found", clears the loading flag and does nothing
    else: no request goes out, no fetch frame is created, and the weather
    and forecast cells are untouched. *)
Theorem search_without_match_aborts (c : Config) (i : nat)
    (unit : UnitSystem) :
  nth_error (pending c) i = Some (HandleSearchAwait unit) ->
  exists c',
    step c (GeoResponse i (Fulfilled [])) = Some c' /\
    trace c' = trace c ++ [OpSetError "Location not found";
                           OpSetLoading false] /\
    requests (trace c') = requests (trace c) /\
    pending c' = remove_nth i (pending c) /\
    State.weather (st c') = State.weather (st c) /\
    State.forecast (st c') = State.forecast (st c) /\
    State.error (st c') = "Location not found" /\
    WeatherApp (st c') = Some (ErrorDiv "Location not found").
Proof.
  intros Hi. unfold step. rewrite Hi.
  eexists. split; [reflexivity|].
  cbn. rewrite <- app_assoc. cbn.
  split; [reflexivity|].
  rewrite requests_app. cbn. rewrite app_nil_r.
  repeat split; reflexivity.
Qed.

(** C10.  Submitting the form while the location cell is empty only calls
    [preventDefault]: no setter runs, no request is sent, no frame is
    parked, and the six state cells are what they were. *)
Theorem empty_search_is_noop (c : Config) :
  interactive (st c) = true ->
  State.location (st c) = "" ->
  exists c',
    step c SubmitForm = Some c' /\
    st c' = st c /\
    pending c' = pending c /\
    trace c' = trace c ++ [OpPreventDefault] /\
    requests (trace c') = requests (trace c).
Proof.
  intros Hint Hloc. unfold step. rewrite Hint, Hloc.
  eexists. split; [reflexivity|].
  cbn. rewrite requests_app. cbn. rewrite app_nil_r.
  repeat split; reflexivity.
Qed.

(** ** Stepping *)

Ltac step_cases H :=
  unfold step in H;
  repeat match type of H with
         | context [if ?b then _ else _] => destruct b eqn:?
         | context [match ?x with _ => _ end] => destruct x eqn:?
         end;
  try discriminate H;
  injection H as <-.

Ltac unfold_progs :=
  unfold onClickUnit, rerender, handleSearch, handleSearch_resume,
    handleSearch_finally, fetchWeather, fetchWeather_resume, onPositionError,
    useEffect, Promise_all, seq, skip, wake, suspend, setWeather, setForecast,
    setLocation, setUnit, setLoading, setError, axios_get, emit.

Ltac split_cases :=
  unfold_progs; cbn;
  repeat match goal with
         | |- context [if ?b then _ else _] => destruct b eqn:?
         | |- context [match ?x with _ => _ end] => destruct x eqn:?
         end;
  cbn.

Lemma step_both_or_neither (c c' : Config) (e : Event) :
  step c e = Some c' ->
  both_or_neither (st c) -> both_or_neither (st c').
Proof.
  unfold both_or_neither. intros H Hinv.
  destruct e; step_cases H; split_cases; try exact Hinv;
    split; intro; discriminate.
Qed.

Lemma reachable_both_or_neither (c : Config) :
  reachable c -> both_or_neither (st c).
Proof.
  intros [es Hrun].
  assert (Hgen : forall c0, both_or_neither (st c0) ->
                            run c0 es = Some c -> both_or_neither (st c)).
  { clear Hrun. induction es as [|e es IH]; intros c0 H0 Hrun; simpl in Hrun.
    - injection Hrun as <-. exact H0.
    - destruct (step c0 e) as [c1|] eqn:Hs; [|discriminate].
      apply (IH c1); [|exact Hrun].
      exact (step_both_or_neither _ _ _ Hs H0). }
  apply (Hgen mount); [|exact Hrun].
  unfold both_or_neither. cbn. split; reflexivity.
Qed.

Lemma nth_error_remove_nth {A : Type} (l : list A) (i j : nat) (t : A) :
  i <> j ->
  nth_error l j = Some t ->
  nth_error (remove_nth i l) (if Nat.ltb i j then pred j else j) = Some t.
Proof.
  revert i j. induction l as [|x l IH]; intros i j Hne Hj.
  - destruct j; discriminate.
  - destruct i as [|i], j as [|j]; simpl in *.
    + contradiction Hne. reflexivity.
    + exact Hj.
    + exact Hj.
    + assert (Hne' : i <> j) by (intro; apply Hne; congruence).
      specialize (IH i j Hne' Hj).
      change (Nat.ltb (S i) (S j)) with (Nat.ltb i j).
      destruct (Nat.ltb_spec i j) as [Hlt|Hge].
      * destruct j as [|j]; [lia|]. simpl in *. exact IH.
      * simpl. exact IH.
Qed.

Lemma nth_error_app_Some {A : Type} (l l' : list A) (j : nat) (t : A) :
  nth_error l j = Some t -> nth_error (l ++ l') j = Some t.
Proof.
  intros H. rewrite nth_error_app1; [exact H|].
  apply nth_error_Some. rewrite H. discriminate.
Qed.

(** A step takes the answered frame out and may park new frames at the
    end; it touches no other frame. *)
Lemma step_pending (c c' : Config) (e : Event) :
  step c e = Some c' ->
  exists parked,
    pending c'
    = match answered e with
      | Some i => remove_nth i (pending c)
      | None => pending c
      end ++ parked.
Proof.
  intros H.
  destruct e; step_cases H; split_cases;
    first [ eexists; reflexivity
          | exists []; rewrite app_nil_r; reflexivity ].
Qed.

Lemma step_frame_after (c c' : Config) (e : Event) (j j' : nat) (t : Task) :
  step c e = Some c' ->
  nth_error (pending c) j = Some t ->
  frame_after j e = Some j' ->
  nth_error (pending c') j' = Some t.
Proof.
  intros Hs Hj Hf.
  destruct (step_pending _ _ _ Hs) as [parked ->].
  unfold frame_after in Hf.
  apply nth_error_app_Some.
  destruct (answered e) as [i|].
  - destruct (Nat.eqb_spec i j) as [Heq|Hne]; [discriminate|].
    pose proof (nth_error_remove_nth _ i j t Hne Hj) as Hr.
    destruct (Nat.ltb i j); injection Hf as <-; exact Hr.
  - injection Hf as <-. exact Hj.
Qed.

Lemma run_frame_after (es : list Event) (c c' : Config) (j j' : nat)
    (t : Task) :
  run c es = Some c' ->
  nth_error (pending c) j = Some t ->
  frame_after_run j es = Some j' ->
  nth_error (pending c') j' = Some t.
Proof.
  revert c j. induction es as [|e es IH]; intros c j Hrun Hj Hf;
    simpl in Hrun, Hf.
  - injection Hrun as <-. injection Hf as <-. exact Hj.
  - destruct (step c e) as [c1|] eqn:Hs; [|discriminate].
    destruct (frame_after j e) as [j1|] eqn:Hj1; [|discriminate].
    apply (IH c1 j1 Hrun); [|exact Hf].
    exact (step_frame_after _ _ _ _ _ _ Hs Hj Hj1).
Qed.

Lemma step_unit_without_click (c c' : Config) (e : Event) :
  step c e = Some c' ->
  is_ClickUnit e = false ->
  State.unit (st c') = State.unit (st c).
Proof.
  intros H Hc.
  destruct e; try discriminate Hc; step_cases H; split_cases; reflexivity.
Qed.

Lemma run_unit_without_click (es : list Event) (c c' : Config) :
  run c es = Some c' ->
  existsb is_ClickUnit es = false ->
  State.unit (st c') = State.unit (st c).
Proof.
  revert c. induction es as [|e es IH]; intros c Hrun Hc;
    cbn [run existsb] in *.
  - injection Hrun as <-. reflexivity.
  - apply orb_false_elim in Hc. destruct Hc as [He Hes].
    destruct (step c e) as [c1|] eqn:Hs; [|discriminate].
    rewrite (IH c1 Hrun Hes). exact (step_unit_without_click _ _ _ Hs He).
Qed.

Lemma fetch_invocation_frame (c : Config) (e : Event) (i : nat)
    (unit : UnitSystem) (lat lon : Q) (caller : Caller) :
  fetch_invocation c e = Some (i, unit, lat, lon, caller) ->
  exists t, nth_error (pending c) i = Some t /\ frame_unit t = Some unit.
Proof.
  unfold fetch_invocation. intros Hinv.
  destruct e as [| | |j la lo|j|j [[|g gs]|]|j rw rf]; try discriminate Hinv;
    destruct (nth_error (pending c) j) as [[u|u|k]|] eqn:Hn;
    try discriminate Hinv; injection Hinv as <- <- <- <- <-;
    eexists; (split; [exact Hn|reflexivity]).
Qed.

Lemma fetch_invocation_step (c : Config) (e : Event) (i : nat)
    (unit : UnitSystem) (lat lon : Q) (caller : Caller) :
  fetch_invocation c e = Some (i, unit, lat, lon, caller) ->
  step c e = Some ((wake i ;; fetchWeather API_KEY unit lat lon caller) c).
Proof.
  unfold fetch_invocation, step. intros Hinv.
  destruct e as [| | |j la lo|j|j [[|g gs]|]|j rw rf]; try discriminate Hinv;
    destruct (nth_error (pending c) j) as [[u|u|k]|];
    try discriminate Hinv; injection Hinv as <- <- <- <- <-; reflexivity.
Qed.

(** C3, as the code has it.  At either call site of [fetchWeather], in any
    configuration, exactly two requests leave, the weather and the forecast
    one, with the coordinates passed and with [units] equal to the unit of
    the closure that makes the call.  That unit is the one the state held
    when the attempt began (the render whose effect asked for the position,
    or in which the form was submitted); the waiting frame keeps it through
    any run until it is answered, and the state's unit is still the same at
    the end of a run without a click on the unit button, so that such a
    fetch does send the active unit.  When both requests
    answer, in any configuration, the one completion step fills the weather
    cell and the forecast cell together.  In every reachable state both
    cells are null or neither is, and the full dashboard is on screen only
    when neither is. *)
Theorem combined_fetch_sends_coordinates_and_unit_then_sets_both :
  (forall c e i unit lat lon caller,
      fetch_invocation c e = Some (i, unit, lat, lon, caller) ->
      exists c1,
        step c e = Some c1 /\
        trace c1 = trace c ++ [OpSetLoading true;
                               OpAxiosGet (weather_url lat lon unit API_KEY);
                               OpAxiosGet (forecast_url lat lon unit API_KEY)] /\
        pending c1 = remove_nth i (pending c) ++ [FetchWeatherAwait caller]) /\
  (forall c i caller w f,
      nth_error (pending c) i = Some (FetchWeatherAwait caller) ->
      exists c2,
        step c (WeatherResponses i (Fulfilled w) (Fulfilled f)) = Some c2 /\
        trace c2 = trace c ++ success_ops w f caller /\
        pending c2 = remove_nth i (pending c) /\
        State.weather (st c2) = Some w /\
        State.forecast (st c2) = Some f /\
        State.loading (st c2) = false) /\
  (pending mount = [PositionCallbacks (State.unit (st mount))]) /\
  (forall c c',
      step c ClickUnit = Some c' ->
      pending c' = pending c ++ [PositionCallbacks (State.unit (st c'))]) /\
  (forall c c',
      step c SubmitForm = Some c' ->
      State.unit (st c') = State.unit (st c) /\
      (pending c' = pending c \/
       pending c' = pending c ++ [HandleSearchAwait (State.unit (st c))])) /\
  (forall c es c' j j' t,
      run c es = Some c' ->
      nth_error (pending c) j = Some t ->
      frame_after_run j es = Some j' ->
      nth_error (pending c') j' = Some t) /\
  (forall c es c',
      run c es = Some c' ->
      existsb is_ClickUnit es = false ->
      State.unit (st c') = State.unit (st c)) /\
  (forall c es c' j j' t e unit lat lon caller,
      nth_error (pending c) j = Some t ->
      frame_unit t = Some (State.unit (st c)) ->
      run c es = Some c' ->
      existsb is_ClickUnit es = false ->
      frame_after_run j es = Some j' ->
      fetch_invocation c' e = Some (j', unit, lat, lon, caller) ->
      unit = State.unit (st c')) /\
  (forall c, reachable c -> both_or_neither (st c)) /\
  (forall s form d,
      WeatherApp s = Some (Page form (Some d)) ->
      exists w f, State.weather s = Some w /\ State.forecast s = Some f).
Proof.
  repeat apply conj.
  - intros c e i unit lat lon caller Hinv.
    eexists. split; [exact (fetch_invocation_step _ _ _ _ _ _ _ Hinv)|].
    cbn. rewrite <- !app_assoc. cbn. split; reflexivity.
  - intros c i caller w f Hi. unfold step. rewrite Hi.
    destruct caller; eexists; (split; [reflexivity|]);
      cbn; rewrite <- ?app_assoc; cbn; repeat split; reflexivity.
  - reflexivity.
  - intros c c' H. unfold step in H.
    destruct (interactive (st c)); [|discriminate].
    injection H as <-. cbn. destruct (State.unit (st c)); reflexivity.
  - intros c c' H. unfold step in H.
    destruct (interactive (st c)); [|discriminate].
    injection H as <-. unfold handleSearch, seq.
    destruct (truthy (State.location (st c))); cbn; split;
      solve [reflexivity | left; reflexivity | right; reflexivity].
  - intros c es c' j j' t. apply run_frame_after.
  - intros c es c'. apply run_unit_without_click.
  - intros c es c' j j' t e unit lat lon caller Hj Hu Hrun Hnc Hfa Hinv.
    pose proof (run_frame_after es c c' j j' t Hrun Hj Hfa) as Hj'.
    destruct (fetch_invocation_frame _ _ _ _ _ _ _ Hinv) as (t' & Ht' & Hu').
    rewrite Hj' in Ht'. injection Ht' as <-.
    rewrite (run_unit_without_click es c c' Hrun Hnc).
    congruence.
  - exact reachable_both_or_neither.
  - intros s form d H. unfold WeatherApp in H.
    destruct (State.loading s); [discriminate|].
    destruct (truthy (State.error s)); [discriminate|].
    destruct (State.weather s) as [w|]; [|discriminate].
    destruct (State.forecast s) as [f|]; [|discriminate].
    exists w, f. split; reflexivity.
Qed.

(** ** Errors and the loading flag *)

Lemma completion_clears_loading (c : Config) (i : nat) (caller : Caller)
    (weatherRes : Response WeatherData.t)
    (forecastRes : Response ForecastData.t) :
  nth_error (pending c) i = Some (FetchWeatherAwait caller) ->
  exists c',
    step c (WeatherResponses i weatherRes forecastRes) = Some c' /\
    State.loading (st c') = false.
Proof.
  intros Hi. unfold step. rewrite Hi.
  eexists. split; [reflexivity|].
  destruct caller, weatherRes, forecastRes; reflexivity.
Qed.

(** No step empties a set error message: [setError] is only ever called
    with one of four non-empty literals. *)
Lemma step_keeps_error_set (c c' : Config) (e : Event) :
  step c e = Some c' ->
  truthy (State.error (st c)) = true ->
  truthy (State.error (st c')) = true.
Proof.
  intros H Herr.
  destruct e; step_cases H; split_cases; solve [exact Herr | reflexivity].
Qed.

Lemma run_keeps_error_set (es : list Event) (c c' : Config) :
  run c es = Some c' ->
  truthy (State.error (st c)) = true ->
  truthy (State.error (st c')) = true.
Proof.
  revert c. induction es as [|e es IH]; intros c Hrun Herr; simpl in Hrun.
  - injection Hrun as <-. exact Herr.
  - destruct (step c e) as [c1|] eqn:Hs; [|discriminate].
    apply (IH c1 Hrun). exact (step_keeps_error_set _ _ _ Hs Herr).
Qed.

(** C5, on the code.  The search for "Nowhereville" finds nothing and sets
    its error; the browser then yields a position, the combined fetch is
    issued and both requests succeed.  The completion clears the loading
    flag and stores both payloads, and the view is still the error message
    of the earlier search. *)
Theorem error_outlives_successful_fetch :
  exists c,
    run mount
        [Change "Nowhereville"; SubmitForm; GeoResponse 1 (Fulfilled []);
         PositionSuccess 0 sample_lat sample_lon;
         WeatherResponses 0 (Fulfilled sample_weather)
                            (Fulfilled sample_forecast)] = Some c /\
    State.loading (st c) = false /\
    State.weather (st c) = Some sample_weather /\
    State.forecast (st c) = Some sample_forecast /\
    WeatherApp (st c) = Some (ErrorDiv "Location not found").
Proof.
  eexists. split; [reflexivity|]. repeat split; reflexivity.
Qed.

(** ** The populated view *)

Lemma Math_round_nearest (x : Q) :
  (inject_Z (Math_round x) - (1 # 2) <= x)%Q /\
  (x < inject_Z (Math_round x) + (1 # 2))%Q.
Proof.
  unfold Math_round.
  pose proof (Qfloor_le (x + (1 # 2))) as Hle.
  pose proof (Qlt_floor (x + (1 # 2))) as Hlt.
  rewrite inject_Z_plus in Hlt.
  change (inject_Z 1) with 1%Q in Hlt.
  split; lra.
Qed.

Lemma temperature_text_shows (t : Q) (unit : UnitSystem) :
  shows_rounded (temperature_text t unit) t unit.
Proof.
  unfold shows_rounded, temperature_text.
  exists [Lit "°"; Lit (unit_letter unit)].
  split; [reflexivity|]. split; [destruct unit; reflexivity|].
  intros Hsafe. cbn [Text_string]. unfold Number_toString.
  apply Z.leb_le in Hsafe. rewrite Hsafe.
  destruct unit; reflexivity.
Qed.

Lemma ForecastDay_well_formed (data : WeatherData.t) (unit : UnitSystem) :
  well_formed data = true ->
  exists tile,
    ForecastDay data unit = Some tile /\
    tile_key tile = WeatherData.dt data /\
    tile_temp tile
    = temperature_text (Main.temp (WeatherData.main data)) unit.
Proof.
  unfold well_formed, ForecastDay.
  destruct (WeatherData.weather data) as [|w0 ws]; [discriminate|].
  intros _. eexists. repeat split.
Qed.

(** Mapping a tile renderer that succeeds on every entry yields one tile per
    entry, in the order of the entries. *)
Lemma map_throwing_total (unit : UnitSystem) (xs : list WeatherData.t) :
  forallb well_formed xs = true ->
  exists ts,
    map_throwing (fun day => ForecastDay day unit) xs = Some ts /\
    map Some ts = map (fun day => ForecastDay day unit) xs.
Proof.
  induction xs as [|x xs IH]; cbn [map_throwing map forallb]; intros Hwf.
  - exists []. split; reflexivity.
  - apply andb_prop in Hwf. destruct Hwf as [Hx Hxs].
    destruct (ForecastDay_well_formed x unit Hx) as (tile & Htile & _).
    destruct (IH Hxs) as (ts & Hts & Hmap).
    exists (tile :: ts). rewrite Htile, Hts. cbn [map].
    rewrite Hmap. split; reflexivity.
Qed.

Lemma dashboard_total (weather : WeatherData.t) (forecast : ForecastData.t)
    (unit : UnitSystem) :
  well_formed weather = true ->
  forallb well_formed (slice0 5 (ForecastData.list forecast)) = true ->
  exists d,
    dashboard weather forecast unit = Some d /\
    temperature d
    = temperature_text (Main.temp (WeatherData.main weather)) unit /\
    map Some (tiles d)
    = map (fun day => ForecastDay day unit)
          (slice0 5 (ForecastData.list forecast)).
Proof.
  intros Hw Hf. unfold dashboard.
  unfold well_formed in Hw.
  destruct (WeatherData.weather weather) as [|w0 ws]; [discriminate|].
  destruct (map_throwing_total unit _ Hf) as (ts & -> & Hmap).
  eexists. split; [reflexivity|]. split; [reflexivity|exact Hmap].
Qed.

(** With nothing loading and no error, two well-formed payloads put the full
    dashboard on screen. *)
Lemma WeatherApp_ready (s : State.t) (w : WeatherData.t)
    (f : ForecastData.t) :
  State.loading s = false ->
  State.error s = "" ->
  State.weather s = Some w ->
  State.forecast s = Some f ->
  well_formed w = true ->
  forallb well_formed (slice0 5 (ForecastData.list f)) = true ->
  exists form d,
    WeatherApp s = Some (Page form (Some d)) /\
    dashboard w f (State.unit s) = Some d.
Proof.
  intros Hl He Hw Hf Hwf Hff. unfold WeatherApp.
  rewrite Hl, He, Hw, Hf. simpl.
  destruct (dashboard_total w f (State.unit s) Hwf Hff) as (d & Hd & _).
  rewrite Hd. eexists. exists d. split; reflexivity.
Qed.


(** C7.  For a well-formed payload on screen, as the current reading or as
    a forecast tile, the temperature is the number [Math.round(main.temp)],
    an integer within one half of [main.temp], followed by exactly "°C"
    under metric and "°F" under imperial; for a safe integer the text on
    screen is its decimal digits and that suffix. *)
Theorem displayed_temperature_is_rounded_with_unit_suffix
    (s : State.t) (w : WeatherData.t) (f : ForecastData.t) :
  State.loading s = false ->
  State.error s = "" ->
  State.weather s = Some w ->
  State.forecast s = Some f ->
  well_formed w = true ->
  forallb well_formed (slice0 5 (ForecastData.list f)) = true ->
  exists form d,
    WeatherApp s = Some (Page form (Some d)) /\
    shows_rounded (temperature d) (Main.temp (WeatherData.main w))
                  (State.unit s) /\
    (inject_Z (Math_round (Main.temp (WeatherData.main w))) - (1 # 2)
       <= Main.temp (WeatherData.main w))%Q /\
    (Main.temp (WeatherData.main w)
       < inject_Z (Math_round (Main.temp (WeatherData.main w))) + (1 # 2))%Q /\
    forall i day,
      (i < 5)%nat ->
      nth_error (ForecastData.list f) i = Some day ->
      exists tile,
        nth_error (tiles d) i = Some tile /\
        shows_rounded (tile_temp tile) (Main.temp (WeatherData.main day))
                      (State.unit s).
Proof.
  intros Hl He Hw Hf Hwf Hff.
  destruct (WeatherApp_ready s w f Hl He Hw Hf Hwf Hff) as (form & d & Hv & Hd).
  destruct (dashboard_total w f (State.unit s) Hwf Hff) as (d' & Hd' & Ht & Hm).
  rewrite Hd in Hd'. injection Hd' as <-.
  exists form, d. split; [exact Hv|].
  split; [rewrite Ht; apply temperature_text_shows|].
  split; [apply Math_round_nearest|].
  split; [apply Math_round_nearest|].
  intros i day Hi Hday.
  assert (Hnth : nth_error (map Some (tiles d)) i
                 = Some (ForecastDay day (State.unit s))).
  { rewrite Hm. unfold slice0.
    rewrite nth_error_map, nth_error_firstn.
    apply Nat.ltb_lt in Hi. rewrite Hi, Hday. reflexivity. }
  rewrite nth_error_map in Hnth.
  destruct (nth_error (tiles d) i) as [tile|]; [|discriminate].
  simpl in Hnth. injection Hnth as Htile.
  exists tile. split; [reflexivity|].
  unfold ForecastDay in Htile.
  destruct (WeatherData.weather day); [discriminate|].
  injection Htile as ->. apply temperature_text_shows.
Qed.

(** C8.  With the dashboard on screen and a forecast list of at least five
    well-formed entries, there are exactly five tiles, and tile [i] is the
    rendering of entry [i] of the list, for [i] from 0 to 4. *)
Theorem first_five_entries_become_tiles_in_order
    (s : State.t) (w : WeatherData.t) (f : ForecastData.t) :
  State.loading s = false ->
  State.error s = "" ->
  State.weather s = Some w ->
  State.forecast s = Some f ->
  well_formed w = true ->
  forallb well_formed (slice0 5 (ForecastData.list f)) = true ->
  (5 <= length (ForecastData.list f))%nat ->
  exists form d,
    WeatherApp s = Some (Page form (Some d)) /\
    length (tiles d) = 5%nat /\
    forall i,
      (i < 5)%nat ->
      exists day tile,
        nth_error (ForecastData.list f) i = Some day /\
        nth_error (tiles d) i = Some tile /\
        ForecastDay day (State.unit s) = Some tile /\
        tile_key tile = WeatherData.dt day.
Proof.
  intros Hl He Hw Hf Hwf Hff Hlen.
  destruct (WeatherApp_ready s w f Hl He Hw Hf Hwf Hff) as (form & d & Hv & Hd).
  destruct (dashboard_total w f (State.unit s) Hwf Hff) as (d' & Hd' & _ & Hm).
  rewrite Hd in Hd'. injection Hd' as <-.
  exists form, d. split; [exact Hv|].
  split.
  - rewrite <- (length_map Some), Hm, length_map.
    unfold slice0. rewrite length_firstn. lia.
  - intros i Hi.
    destruct (nth_error (ForecastData.list f) i) as [day|] eqn:Hday.
    2:{ apply nth_error_None in Hday. lia. }
    assert (Hnth : nth_error (map Some (tiles d)) i
                   = Some (ForecastDay day (State.unit s))).
    { rewrite Hm. unfold slice0.
      rewrite nth_error_map, nth_error_firstn.
      apply Nat.ltb_lt in Hi. rewrite Hi, Hday. reflexivity. }
    rewrite nth_error_map in Hnth.
    destruct (nth_error (tiles d) i) as [tile|]; [|discriminate].
    simpl in Hnth. injection Hnth as Htile.
    exists day, tile. repeat split; [symmetry; exact Htile|].
    unfold ForecastDay in Htile.
    destruct (WeatherData.weather day); [discriminate|].
    injection Htile as ->. reflexivity.
Qed.

(** ** Changing the unit *)


(** ** Blocked geolocation *)

Lemma remove_nth_forallb {A : Type} (p : A -> bool) (l : list A) (i : nat) :
  forallb p l = true -> forallb p (remove_nth i l) = true.
Proof.
  revert i. induction l as [|x l IH]; intros i H; destruct i; simpl in *;
    try reflexivity; apply andb_prop in H; destruct H as [Hx Hl];
    [exact Hl|].
  rewrite Hx. simpl. apply IH. exact Hl.
Qed.

Lemma nth_error_forallb {A : Type} (p : A -> bool) (l : list A) (i : nat)
    (x : A) :
  forallb p l = true -> nth_error l i = Some x -> p x = true.
Proof.
  intros H Hn. apply nth_error_In in Hn.
  rewrite forallb_forall in H. apply H. exact Hn.
Qed.

Lemma step_idle_without_data (c c' : Config) (e : Event) :
  idle_without_data c ->
  without_search_or_position e = true ->
  step c e = Some c' ->
  idle_without_data c' /\
  (is_PositionError e = true ->
   State.error (st c')
   = "Geolocation blocked. Please enable it or search manually.") /\
  (State.error (st c)
   = "Geolocation blocked. Please enable it or search manually." ->
   State.error (st c')
   = "Geolocation blocked. Please enable it or search manually.").
Proof.
  unfold idle_without_data.
  intros (Hl & Hw & Hf & Hr & Hp & He) Hq Hs.
  destruct e as [v| | |j la lo|j|j g|j rw rf]; try discriminate Hq;
    unfold step in Hs.
  - destruct (interactive (st c)); [|discriminate].
    injection Hs as <-. cbn. rewrite requests_app, Hr. cbn.
    repeat split; auto; intros; discriminate.
  - destruct (interactive (st c)); [|discriminate].
    injection Hs as <-. unfold_progs. cbn.
    destruct (State.unit (st c)); cbn;
      rewrite !requests_app, Hr, forallb_app, Hp; cbn;
      repeat split; auto; intros; discriminate.
  - destruct (nth_error (pending c) j) as [[u|u|k]|]; try discriminate.
    injection Hs as <-. cbn. rewrite requests_app, Hr. cbn.
    repeat split; auto using remove_nth_forallb.
  - destruct (nth_error (pending c) j) as [[u|u|k]|] eqn:Hn;
      try discriminate.
    pose proof (nth_error_forallb _ _ _ _ Hp Hn). discriminate.
  - destruct (nth_error (pending c) j) as [[u|u|k]|] eqn:Hn;
      try discriminate.
    pose proof (nth_error_forallb _ _ _ _ Hp Hn). discriminate.
Qed.

Lemma run_idle_without_data (es : list Event) (c c' : Config) :
  idle_without_data c ->
  forallb without_search_or_position es = true ->
  run c es = Some c' ->
  idle_without_data c' /\
  (existsb is_PositionError es = true \/
   State.error (st c)
   = "Geolocation blocked. Please enable it or search manually." ->
   State.error (st c')
   = "Geolocation blocked. Please enable it or search manually.").
Proof.
  revert c. induction es as [|e es IH]; intros c Hinv Hq Hrun;
    cbn [run forallb existsb] in *.
  - injection Hrun as <-. split; [exact Hinv|].
    intros [H|H]; [discriminate|exact H].
  - apply andb_prop in Hq. destruct Hq as [He Hes].
    destruct (step c e) as [c1|] eqn:Hs; [|discriminate].
    destruct (step_idle_without_data c c1 e Hinv He Hs) as (H1 & Hnew & Hold).
    destruct (IH c1 H1 Hes Hrun) as [H2 Hadv].
    split; [exact H2|].
    intros [H|H]; apply Hadv.
    + apply orb_prop in H. destruct H as [H|H]; [right; auto|left; exact H].
    + right. auto.
Qed.

(** C9.  In a session from the first render in which the form is never
    submitted and the browser never yields a position, once a geolocation
    request has failed the view is the advisory message, no request to the
    provider has been sent at all, and neither payload is stored.  In any
    state, the failure callback itself only sets the advisory message: it
    sends nothing and parks no fetch, and with nothing loading the view is
    the advisory. *)
Theorem blocked_geolocation_shows_advisory :
  (forall es c,
      run mount es = Some c ->
      forallb without_search_or_position es = true ->
      existsb is_PositionError es = true ->
      WeatherApp (st c)
      = Some (ErrorDiv
                "Geolocation blocked. Please enable it or search manually.") /\
      requests (trace c) = [] /\
      State.weather (st c) = None /\
      State.forecast (st c) = None) /\
  (forall c i unit,
      nth_error (pending c) i = Some (PositionCallbacks unit) ->
      exists c',
        step c (PositionError i) = Some c' /\
        trace c'
        = trace c ++
          [OpSetError
             "Geolocation blocked. Please enable it or search manually."] /\
        pending c' = remove_nth i (pending c) /\
        (State.loading (st c) = false ->
         WeatherApp (st c')
         = Some (ErrorDiv
                   "Geolocation blocked. Please enable it or search manually."))).
Proof.
  split.
  - intros es c Hrun Hq Hex.
    assert (Hm : idle_without_data mount).
    { unfold idle_without_data. cbn. repeat split. left. reflexivity. }
    destruct (run_idle_without_data es mount c Hm Hq Hrun)
      as [(Hl & Hw & Hf & Hr & _ & _) Hadv].
    specialize (Hadv (or_introl Hex)).
    unfold WeatherApp. rewrite Hl, Hadv. repeat split; assumption.
  - intros c i unit Hi. unfold step. rewrite Hi.
    eexists. split; [reflexivity|]. cbn.
    repeat split. intros Hl. unfold WeatherApp. cbn. rewrite Hl. reflexivity.
Qed.

(** * Further properties of the component *)

(** ** Helpers *)

Lemma interactive_inv (s : State.t) :
  interactive s = true ->
  State.loading s = false /\ truthy (State.error s) = false.
Proof.
  unfold interactive, WeatherApp.
  destruct (State.loading s); [discriminate|].
  destruct (truthy (State.error s)); [discriminate|].
  intros _. split; reflexivity.
Qed.

Ltac tidy_trace :=
  cbn; rewrite <- ?app_assoc; cbn; rewrite ?requests_app; cbn;
  rewrite ?app_nil_r.

(** ** The error paths *)

(** X1.  When the geocoding request itself is rejected, the waiting
    [handleSearch] sets "Failed to fetch location" and clears the loading
    flag; it sends nothing, parks no fetch, leaves both payloads as they
    were, and the view is that message. *)
Theorem geocoding_failure_aborts (c : Config) (i : nat) (unit : UnitSystem) :
  nth_error (pending c) i = Some (HandleSearchAwait unit) ->
  exists c',
    step c (GeoResponse i Rejected) = Some c' /\
    trace c' = trace c ++ [OpSetError "Failed to fetch location";
                           OpSetLoading false] /\
    pending c' = remove_nth i (pending c) /\
    State.weather (st c') = State.weather (st c) /\
    State.forecast (st c') = State.forecast (st c) /\
    WeatherApp (st c') = Some (ErrorDiv "Failed to fetch location").
Proof.
  intros Hi. unfold step. rewrite Hi.
  eexists. split; [reflexivity|]. tidy_trace. repeat split.
Qed.

(** X2.  After a failed combined fetch the view is the fetch-failure
    message, whatever payloads an earlier fetch has stored: they stay in the
    state but are not on screen. *)
Theorem fetch_failure_hides_stored_data (c : Config) (i : nat)
    (caller : Caller) (weatherRes : Response WeatherData.t)
    (forecastRes : Response ForecastData.t) :
  nth_error (pending c) i = Some (FetchWeatherAwait caller) ->
  Promise_all weatherRes forecastRes = None ->
  exists c',
    step c (WeatherResponses i weatherRes forecastRes) = Some c' /\
    WeatherApp (st c') = Some (ErrorDiv "Failed to fetch weather data") /\
    State.weather (st c') = State.weather (st c) /\
    State.forecast (st c') = State.forecast (st c).
Proof.
  intros Hi Hall. unfold step. rewrite Hi, Hall.
  eexists. split; [reflexivity|].
  destruct caller; cbn; repeat split.
Qed.

(** ** What a step leaves alone *)

(** X3.  Only typing changes the search text and only the unit button
    changes the unit: an answer from the browser or the provider touches
    neither, and a submitted search keeps its text in the input. *)
Theorem location_and_unit_change_only_by_the_user (c c' : Config)
    (e : Event) :
  step c e = Some c' ->
  (State.location (st c') = State.location (st c) \/
   e = Change (State.location (st c'))) /\
  (State.unit (st c') = State.unit (st c) \/
   (e = ClickUnit /\ State.unit (st c') = other_unit (State.unit (st c)))).
Proof.
  intros H.
  destruct e; step_cases H; split_cases;
    split; solve [left; reflexivity | right; reflexivity
                 | right; split; reflexivity].
Qed.

Lemma step_keeps_payloads (c c' : Config) (e : Event) :
  step c e = Some c' ->
  (State.weather (st c) <> None -> State.weather (st c') <> None) /\
  (State.forecast (st c) <> None -> State.forecast (st c') <> None).
Proof.
  intros H.
  destruct e; step_cases H; split_cases;
    split; intros Hn; solve [exact Hn | discriminate].
Qed.

(** X4.  A stored payload is never cleared: along any run, once the weather
    (or the forecast) cell is non-null it stays non-null, also across errors
    and new attempts. *)
Theorem payloads_are_never_cleared (es : list Event) (c c' : Config) :
  run c es = Some c' ->
  (State.weather (st c) <> None -> State.weather (st c') <> None) /\
  (State.forecast (st c) <> None -> State.forecast (st c') <> None).
Proof.
  revert c. induction es as [|e es IH]; intros c Hrun; simpl in Hrun.
  - injection Hrun as <-. split; intro H; exact H.
  - destruct (step c e) as [c1|] eqn:Hs; [|discriminate].
    destruct (step_keeps_payloads _ _ _ Hs) as [Hw Hf].
    destruct (IH c1 Hrun) as [Hw' Hf'].
    split; auto.
Qed.

Lemma step_after_error (c c' : Config) (e : Event) :
  truthy (State.error (st c)) = true ->
  step c e = Some c' ->
  State.location (st c') = State.location (st c) /\
  State.unit (st c') = State.unit (st c).
Proof.
  intros Herr H.
  destruct e; unfold step in H;
    try (destruct (interactive (st c)) eqn:Hi;
         [apply interactive_inv in Hi; destruct Hi as [_ Hi]; congruence
         |discriminate]);
    step_cases H; split_cases; split; reflexivity.
Qed.

(** X5.  Once an error message is set the component is stuck behind it: along
    any run the message stays non-empty, the form is never on screen again
    (so no search and no unit change can be made), and the search text and
    the unit keep their values. *)
Theorem error_is_terminal (es : list Event) (c c' : Config) :
  truthy (State.error (st c)) = true ->
  run c es = Some c' ->
  truthy (State.error (st c')) = true /\
  interactive (st c') = false /\
  State.location (st c') = State.location (st c) /\
  State.unit (st c') = State.unit (st c).
Proof.
  revert c. induction es as [|e es IH]; intros c Herr Hrun; simpl in Hrun.
  - injection Hrun as <-. split; [exact Herr|].
    split; [|split; reflexivity].
    destruct (interactive (st c)) eqn:Hi; [|reflexivity].
    apply interactive_inv in Hi. destruct Hi as [_ Hi]. congruence.
  - destruct (step c e) as [c1|] eqn:Hs; [|discriminate].
    pose proof (step_keeps_error_set _ _ _ Hs Herr) as Herr1.
    destruct (step_after_error _ _ _ Herr Hs) as [Hl Hu].
    destruct (IH c1 Herr1 Hrun) as (H1 & H2 & H3 & H4).
    repeat split; congruence.
Qed.

Lemma step_error_messages (c c' : Config) (e : Event) :
  step c e = Some c' ->
  State.error (st c) = "" \/ In (State.error (st c)) error_messages ->
  State.error (st c') = "" \/ In (State.error (st c')) error_messages.
Proof.
  intros H Hinv. unfold error_messages.
  destruct e; step_cases H; split_cases;
    solve [exact Hinv | right; simpl; tauto].
Qed.

(** X6.  In every reachable state the error cell is empty or holds one of the
    four fixed messages; no text of the provider or of the browser ever
    reaches it. *)
Theorem error_is_one_of_four_messages (c : Config) :
  reachable c ->
  State.error (st c) = "" \/ In (State.error (st c)) error_messages.
Proof.
  intros [es Hrun].
  assert (Hgen : forall c0,
             State.error (st c0) = "" \/
             In (State.error (st c0)) error_messages ->
             run c0 es = Some c ->
             State.error (st c) = "" \/
             In (State.error (st c)) error_messages).
  { clear Hrun. induction es as [|e es IH]; intros c0 H0 Hrun;
      simpl in Hrun.
    - injection Hrun as <-. exact H0.
    - destruct (step c0 e) as [c1|] eqn:Hs; [|discriminate].
      apply (IH c1); [|exact Hrun].
      exact (step_error_messages _ _ _ Hs H0). }
  apply (Hgen mount); [|exact Hrun]. left. reflexivity.
Qed.

(** ** Requests and the loading flag *)

Lemma request_blocks_app (key : string) (xs ys : list Url) :
  request_blocks key xs -> request_blocks key ys ->
  request_blocks key (xs ++ ys).
Proof.
  intros Hx Hy. induction Hx; simpl; [exact Hy| |]; constructor; assumption.
Qed.

Lemma step_requests (c c' : Config) (e : Event) :
  step c e = Some c' ->
  exists block,
    requests (trace c') = requests (trace c) ++ block /\
    request_blocks API_KEY block /\
    (block <> [] -> State.loading (st c') = true).
Proof.
  intros H.
  destruct e; step_cases H; split_cases; tidy_trace;
    solve
      [ exists []; rewrite ?app_nil_r; repeat split;
        [constructor | intros Hb; contradiction Hb; reflexivity]
      | eexists; split; [reflexivity|]; split;
        [repeat constructor; assumption | reflexivity] ].
Qed.

(** X7.  Whenever a step sends a request to the provider, the loading flag
    is set when the step ends, so the next view is the loading indicator. *)
Theorem sending_a_request_shows_the_loader (c c' : Config) (e : Event) :
  step c e = Some c' ->
  requests (trace c') <> requests (trace c) ->
  WeatherApp (st c') = Some BeatLoader.
Proof.
  intros H Hneq.
  destruct (step_requests _ _ _ H) as (block & Hreq & _ & Hload).
  unfold WeatherApp. rewrite Hload; [reflexivity|].
  intros ->. apply Hneq. rewrite Hreq, app_nil_r. reflexivity.
Qed.

(** X8.  The requests of every reachable trace come in whole blocks: the
    geocoding template filled with a non-empty text, or the weather template
    immediately followed by the forecast template filled with the same
    coordinates and the same unit; the configured key is the text after
    [appid=] in each.  No weather request goes out without its forecast
    twin, and the geocoder is never asked with an empty text. *)
Theorem requests_come_in_blocks (c : Config) :
  reachable c -> request_blocks API_KEY (requests (trace c)).
Proof.
  intros [es Hrun].
  assert (Hgen : forall c0,
             request_blocks API_KEY (requests (trace c0)) ->
             run c0 es = Some c ->
             request_blocks API_KEY (requests (trace c))).
  { clear Hrun. induction es as [|e es IH]; intros c0 H0 Hrun;
      simpl in Hrun.
    - injection Hrun as <-. exact H0.
    - destruct (step c0 e) as [c1|] eqn:Hs; [|discriminate].
      apply (IH c1); [|exact Hrun].
      destruct (step_requests _ _ _ Hs) as (block & -> & Hb & _).
      apply request_blocks_app; assumption. }
  apply (Hgen mount); [|exact Hrun]. constructor.
Qed.

Lemma existsb_remove_nth {A : Type} (p : A -> bool) (l : list A) (i : nat)
    (x : A) :
  nth_error l i = Some x -> p x = false ->
  existsb p (remove_nth i l) = existsb p l.
Proof.
  revert i. induction l as [|y l IH]; intros i Hn Hp; destruct i;
    simpl in *; try discriminate.
  - injection Hn as ->. rewrite Hp. reflexivity.
  - rewrite (IH i Hn Hp). reflexivity.
Qed.

Lemma step_loading_has_frame (c c' : Config) (e : Event) :
  step c e = Some c' ->
  (State.loading (st c) = true ->
   existsb is_provider_wait (pending c) = true) ->
  State.loading (st c') = true ->
  existsb is_provider_wait (pending c') = true.
Proof.
  intros H Hinv.
  destruct e; unfold step in H.
  - destruct (interactive (st c)) eqn:Hi; [|discriminate].
    apply interactive_inv in Hi. destruct Hi as [Hl _].
    injection H as <-. cbn. congruence.
  - destruct (interactive (st c)) eqn:Hi; [|discriminate].
    apply interactive_inv in Hi. destruct Hi as [Hl _].
    injection H as <-. unfold_progs. cbn.
    destruct (truthy (State.location (st c))); cbn; [|congruence].
    intros _. rewrite existsb_app. cbn. apply orb_true_r.
  - destruct (interactive (st c)) eqn:Hi; [|discriminate].
    apply interactive_inv in Hi. destruct Hi as [Hl _].
    injection H as <-. unfold_progs. cbn.
    destruct (State.unit (st c)); cbn; congruence.
  - destruct (nth_error (pending c) i) as [[u|u|k]|]; try discriminate.
    injection H as <-. cbn. intros _.
    rewrite existsb_app. cbn. apply orb_true_r.
  - destruct (nth_error (pending c) i) as [[u|u|k]|] eqn:Hn;
      try discriminate.
    injection H as <-. cbn.
    rewrite (existsb_remove_nth _ _ _ _ Hn eq_refl). exact Hinv.
  - destruct (nth_error (pending c) i) as [[u|u|k]|]; try discriminate.
    injection H as <-. destruct geoRes as [[|g gs]|]; cbn;
      try discriminate.
    intros _. rewrite existsb_app. cbn. apply orb_true_r.
  - destruct (nth_error (pending c) i) as [[u|u|k]|]; try discriminate.
    injection H as <-.
    destruct k, (Promise_all weatherRes forecastRes) as [[w f]|]; cbn;
      discriminate.
Qed.

(** X9.  The loading indicator is never left without something to wait for:
    in every reachable state with the loading flag set, a search or a
    combined fetch is still waiting for the provider. *)
Theorem loading_has_an_outstanding_request (c : Config) :
  reachable c ->
  State.loading (st c) = true ->
  existsb is_provider_wait (pending c) = true.
Proof.
  intros [es Hrun].
  assert (Hgen : forall c0,
             (State.loading (st c0) = true ->
              existsb is_provider_wait (pending c0) = true) ->
             run c0 es = Some c ->
             State.loading (st c) = true ->
             existsb is_provider_wait (pending c) = true).
  { clear Hrun. induction es as [|e es IH]; intros c0 H0 Hrun;
      simpl in Hrun.
    - injection Hrun as <-. exact H0.
    - destruct (step c0 e) as [c1|] eqn:Hs; [|discriminate].
      apply (IH c1); [|exact Hrun].
      exact (step_loading_has_frame _ _ _ Hs H0). }
  apply (Hgen mount); [|exact Hrun]. cbn. discriminate.
Qed.

Lemma count_ops_app (p : Op -> bool) (xs ys : list Op) :
  count_ops p (xs ++ ys) = (count_ops p xs + count_ops p ys)%nat.
Proof. unfold count_ops. rewrite filter_app, length_app. reflexivity. Qed.

Lemma step_position_requests (c c' : Config) (e : Event) :
  step c e = Some c' ->
  (count_ops is_OpGetCurrentPosition (trace c')
     + count_ops is_OpSetUnit (trace c)
   = count_ops is_OpGetCurrentPosition (trace c)
     + count_ops is_OpSetUnit (trace c'))%nat.
Proof.
  intros H.
  destruct e; step_cases H; split_cases; unfold count_ops;
    rewrite <- ?app_assoc; cbn; rewrite ?filter_app, ?length_app; cbn;
    solve [ lia
          | match goal with
            | Hb : UnitSystem_eqb _ _ = true |- _ =>
                cbn in Hb; discriminate Hb
            end ].
Qed.

(** X10.  The browser is asked for the position once on the first render
    and once more for every change of unit, and at no other time: in every
    reachable trace the position requests number one more than the calls of
    [setUnit]. *)
Theorem one_position_request_per_unit_change (c : Config) :
  reachable c ->
  count_ops is_OpGetCurrentPosition (trace c)
  = S (count_ops is_OpSetUnit (trace c)).
Proof.
  intros [es Hrun].
  assert (Hgen : forall c0,
             count_ops is_OpGetCurrentPosition (trace c0)
             = S (count_ops is_OpSetUnit (trace c0)) ->
             run c0 es = Some c ->
             count_ops is_OpGetCurrentPosition (trace c)
             = S (count_ops is_OpSetUnit (trace c))).
  { clear Hrun. induction es as [|e es IH]; intros c0 H0 Hrun;
      simpl in Hrun.
    - injection Hrun as <-. exact H0.
    - destruct (step c0 e) as [c1|] eqn:Hs; [|discriminate].
      apply (IH c1); [|exact Hrun].
      pose proof (step_position_requests _ _ _ Hs). lia. }
  apply (Hgen mount); [|exact Hrun]. reflexivity.
Qed.

(** ** Attempts from start to end *)

Lemma remove_nth_snoc {A : Type} (l : list A) (x : A) :
  remove_nth (length l) (l ++ [x]) = l.
Proof.
  induction l as [|y l IH]; simpl; [reflexivity|]. rewrite IH. reflexivity.
Qed.

(** X11.  A search with a non-empty text, answered with at least one match
    and then with both payloads, runs through as follows: the typed text is
    put into the geocoding template as it is, with nothing encoded, the
    loading indicator shows, the coordinates of the first match alone
    (whatever follows it) go into the two requests under the unit of the
    submitting render, both payloads are stored, the loading flag ends
    clear, and no frame of the attempt is left behind. *)
Theorem successful_search_uses_first_match (c : Config) (g : GeoEntry.t)
    (others : list GeoEntry.t) (w : WeatherData.t) (f : ForecastData.t) :
  interactive (st c) = true ->
  truthy (State.location (st c)) = true ->
  exists c1 c2 c3,
    step c SubmitForm = Some c1 /\
    WeatherApp (st c1) = Some BeatLoader /\
    step c1 (GeoResponse (length (pending c)) (Fulfilled (g :: others)))
    = Some c2 /\
    step c2 (WeatherResponses (length (pending c))
                              (Fulfilled w) (Fulfilled f)) = Some c3 /\
    trace c3
    = trace c ++
      [OpPreventDefault; OpSetLoading true;
       OpAxiosGet
         [Lit "https://api.openweathermap.org/geo/1.0/direct?q=";
          Lit (State.location (st c));
          Lit "&limit=1&appid="; Lit API_KEY];
       OpSetLoading true;
       OpAxiosGet (weather_url (GeoEntry.lat g) (GeoEntry.lon g)
                               (State.unit (st c)) API_KEY);
       OpAxiosGet (forecast_url (GeoEntry.lat g) (GeoEntry.lon g)
                                (State.unit (st c)) API_KEY);
       OpSetWeather w; OpSetForecast f;
       OpSetLoading false; OpSetLoading false] /\
    pending c3 = pending c /\
    State.weather (st c3) = Some w /\
    State.forecast (st c3) = Some f /\
    State.loading (st c3) = false /\
    State.location (st c3) = State.location (st c).
Proof.
  intros Hint Hloc.
  eexists. eexists. eexists.
  split. { unfold step. rewrite Hint. reflexivity. }
  split. { unfold_progs. rewrite ?Hloc. reflexivity. }
  split.
  { unfold step. unfold_progs. rewrite ?Hloc. cbn [pending].
    rewrite nth_error_snoc. reflexivity. }
  split.
  { unfold step. unfold_progs. rewrite ?Hloc. cbn [pending].
    rewrite remove_nth_snoc, nth_error_snoc. reflexivity. }
  unfold_progs. rewrite ?Hloc. cbn.
  rewrite !remove_nth_snoc, <- !app_assoc. cbn.
  repeat split.
Qed.

(** X12.  A position that arrives after the unit was changed still starts
    its fetch in the unit of the render that asked for it: the callbacks
    registered before the click send both requests with the old unit while
    the state already holds the new one. *)
Theorem late_position_fetches_in_the_old_unit (c : Config) (i : nat)
    (lat lon : Q) :
  interactive (st c) = true ->
  nth_error (pending c) i = Some (PositionCallbacks (State.unit (st c))) ->
  exists c1 c2,
    step c ClickUnit = Some c1 /\
    step c1 (PositionSuccess i lat lon) = Some c2 /\
    State.unit (st c2) = other_unit (State.unit (st c)) /\
    requests (trace c2)
    = requests (trace c1) ++
      [weather_url lat lon (State.unit (st c)) API_KEY;
       forecast_url lat lon (State.unit (st c)) API_KEY].
Proof.
  intros Hint Hi.
  assert (Hlt : (i < length (pending c))%nat).
  { apply nth_error_Some. rewrite Hi. discriminate. }
  eexists. eexists.
  split. { unfold step. rewrite Hint. reflexivity. }
  assert (Hp : nth_error (pending (onClickUnit (State.unit (st c)) c)) i
               = Some (PositionCallbacks (State.unit (st c)))).
  { unfold_progs. cbn. destruct (State.unit (st c)) eqn:Hu; cbn;
      rewrite nth_error_app1 by exact Hlt; rewrite Hi, ?Hu; reflexivity. }
  split. { unfold step. rewrite Hp. reflexivity. }
  unfold_progs. cbn. destruct (State.unit (st c)); cbn;
    rewrite <- !app_assoc; cbn; rewrite !requests_app; cbn;
    rewrite <- !app_assoc; split; reflexivity.
Qed.

Lemma In_remove_nth {A : Type} (l : list A) (i j : nat) (x : A) :
  nth_error l j = Some x -> i <> j -> In x (remove_nth i l).
Proof.
  revert i j. induction l as [|y l IH]; intros i j Hj Hne.
  - destruct j; discriminate.
  - destruct i, j; simpl in *.
    + contradiction Hne. reflexivity.
    + apply nth_error_In in Hj. exact Hj.
    + injection Hj as ->. left. reflexivity.
    + right. apply (IH i j Hj). intro. apply Hne. congruence.
Qed.

(** X13.  Completions are not interlocked: when a combined fetch completes
    while another frame is still waiting, the loading flag is cleared all
    the same and the other frame stays pending. *)
Theorem completion_clears_loading_despite_other_frames (c : Config)
    (i j : nat) (caller : Caller) (other : Task)
    (weatherRes : Response WeatherData.t)
    (forecastRes : Response ForecastData.t) :
  nth_error (pending c) i = Some (FetchWeatherAwait caller) ->
  nth_error (pending c) j = Some other ->
  i <> j ->
  exists c',
    step c (WeatherResponses i weatherRes forecastRes) = Some c' /\
    State.loading (st c') = false /\
    In other (pending c').
Proof.
  intros Hi Hj Hne. unfold step. rewrite Hi.
  eexists. split; [reflexivity|].
  split.
  - destruct caller, weatherRes, forecastRes; reflexivity.
  - destruct caller, (Promise_all weatherRes forecastRes) as [[w f]|]; cbn;
      apply (In_remove_nth _ _ _ _ Hj Hne).
Qed.

(** ** More on the view *)

Lemma map_throwing_length {A B : Type} (g : A -> option B) (xs : list A)
    (ys : list B) :
  map_throwing g xs = Some ys -> length ys = length xs.
Proof.
  revert ys. induction xs as [|x xs IH]; intros ys H; simpl in H.
  - injection H as <-. reflexivity.
  - destruct (g x) as [y|]; [|discriminate].
    destruct (map_throwing g xs) as [ys'|]; [|discriminate].
    injection H as <-. simpl. rewrite (IH ys' eq_refl). reflexivity.
Qed.

Lemma map_throwing_well_formed (unit : UnitSystem)
    (xs : list WeatherData.t) (ts : list TileView) :
  map_throwing (fun day => ForecastDay day unit) xs = Some ts ->
  forallb well_formed xs = true.
Proof.
  revert ts. induction xs as [|x xs IH]; intros ts H;
    cbn [map_throwing forallb] in *; [reflexivity|].
  destruct (ForecastDay x unit) as [t|] eqn:Hx; [|discriminate].
  destruct (map_throwing _ xs) as [ts'|]; [|discriminate].
  rewrite (IH ts' eq_refl), andb_true_r.
  unfold ForecastDay in Hx. unfold well_formed.
  destruct (WeatherData.weather x); [discriminate|reflexivity].
Qed.

Lemma dashboard_some_iff (w : WeatherData.t) (f : ForecastData.t)
    (unit : UnitSystem) :
  dashboard w f unit <> None <->
  well_formed w = true /\
  forallb well_formed (slice0 5 (ForecastData.list f)) = true.
Proof.
  split.
  - unfold dashboard, well_formed. intros H.
    destruct (WeatherData.weather w); [contradiction H; reflexivity|].
    destruct (map_throwing _ _) as [ts|] eqn:Hm;
      [|contradiction H; reflexivity].
    split; [reflexivity|]. exact (map_throwing_well_formed _ _ _ Hm).
  - intros [Hw Hf].
    destruct (dashboard_total w f unit Hw Hf) as (d & -> & _). discriminate.
Qed.

(** X14.  With both payloads stored, nothing loading and no error, the
    render throws exactly when the current reading has no condition entry
    or one of the first five forecast entries has none; entries from the
    sixth on are never looked at. *)
Theorem render_throws_exactly_on_missing_conditions
    (s : State.t) (w : WeatherData.t) (f : ForecastData.t) :
  State.loading s = false ->
  State.error s = "" ->
  State.weather s = Some w ->
  State.forecast s = Some f ->
  (WeatherApp s = None <->
   well_formed w = false \/
   forallb well_formed (slice0 5 (ForecastData.list f)) = false).
Proof.
  intros Hl He Hw Hf. unfold WeatherApp. rewrite Hl, He, Hw, Hf.
  cbv beta iota delta [truthy].
  pose proof (dashboard_some_iff w f (State.unit s)) as Hiff.
  destruct (dashboard w f (State.unit s)) as [d|].
  - split; [discriminate|].
    assert (Hok : well_formed w = true /\
                  forallb well_formed (slice0 5 (ForecastData.list f)) = true)
      by (apply Hiff; discriminate).
    destruct Hok as [-> ->]. intros [H|H]; discriminate.
  - split; [|reflexivity]. intros _.
    destruct (well_formed w) eqn:Hwf; [|left; reflexivity].
    destruct (forallb well_formed (slice0 5 (ForecastData.list f))) eqn:Hff;
      [|right; reflexivity].
    exfalso. apply (proj2 Hiff); [split; reflexivity|reflexivity].
Qed.

(** X15.  Whenever the dashboard is on screen the number of forecast tiles
    is the smaller of five and the length of the forecast list: a shorter
    list yields one tile per entry, with no padding, and an empty list
    yields none. *)
Theorem tiles_number_min_of_five_and_list_length
    (s : State.t) (form : FormView) (d : DashView) (f : ForecastData.t) :
  WeatherApp s = Some (Page form (Some d)) ->
  State.forecast s = Some f ->
  length (tiles d) = Nat.min 5 (length (ForecastData.list f)).
Proof.
  unfold WeatherApp. intros H Hf. rewrite Hf in H.
  destruct (State.loading s); [discriminate|].
  destruct (truthy (State.error s)); [discriminate|].
  destruct (State.weather s) as [w|]; [|discriminate].
  destruct (dashboard w f (State.unit s)) as [d'|] eqn:Hd; [|discriminate].
  injection H as _ <-.
  unfold dashboard in Hd.
  destruct (WeatherData.weather w); [discriminate|].
  destruct (map_throwing _ _) as [ts|] eqn:Hm; [|discriminate].
  injection Hd as <-. cbn [tiles].
  rewrite (map_throwing_length _ _ _ Hm).
  unfold slice0. apply length_firstn.
Qed.

Lemma interactive_setUnit (s : State.t) (unit : UnitSystem) :
  interactive (apply_op (OpSetUnit unit) s) = interactive s.
Proof.
  unfold interactive, WeatherApp. cbn.
  destruct (State.loading s); [reflexivity|].
  destruct (truthy (State.error s)); [reflexivity|].
  destruct (State.weather s) as [w|]; [|reflexivity].
  destruct (State.forecast s) as [f|]; [|reflexivity].
  pose proof (dashboard_some_iff w f unit) as H1.
  pose proof (dashboard_some_iff w f (State.unit s)) as H2.
  destruct (dashboard w f unit), (dashboard w f (State.unit s));
    try reflexivity; exfalso.
  - apply (proj2 H2); [|reflexivity]. apply H1. discriminate.
  - apply (proj2 H1); [|reflexivity]. apply H2. discriminate.
Qed.

(** X17.  The unit button stays on screen after a click, and a second click
    brings the state back to what it was; what the two clicks leave behind
    are two position requests, the first registered under the other unit
    and the second under the original one. *)
Theorem two_clicks_restore_the_unit (c : Config) :
  interactive (st c) = true ->
  exists c1 c2,
    step c ClickUnit = Some c1 /\
    interactive (st c1) = true /\
    step c1 ClickUnit = Some c2 /\
    st c2 = st c /\
    pending c2
    = pending c ++ [PositionCallbacks (other_unit (State.unit (st c)));
                    PositionCallbacks (State.unit (st c))].
Proof.
  intros Hint.
  assert (H1 : interactive (st (onClickUnit (State.unit (st c)) c)) = true).
  { rewrite <- Hint. unfold_progs. cbn.
    destruct (State.unit (st c)); cbn; apply interactive_setUnit. }
  eexists. eexists.
  split. { unfold step. rewrite Hint. reflexivity. }
  split; [exact H1|].
  split. { unfold step. rewrite H1. reflexivity. }
  unfold_progs. cbn. destruct (st c) as [w f l u b e]. cbn.
  destruct u; cbn; rewrite <- !app_assoc; split; reflexivity.
Qed.

(** X19.  The figure shown for a temperature never decreases when the
    reading increases; a whole-number reading is shown as it is; and a
    reading exactly halfway between two whole numbers is shown as the upper
    one, below zero as well. *)
Theorem shown_figure_monotone_and_half_up :
  (forall x y : Q, (x <= y)%Q -> (Math_round x <= Math_round y)%Z) /\
  (forall n : Z, Math_round (inject_Z n) = n) /\
  (forall n : Z, Math_round (inject_Z n + (1 # 2)) = (n + 1)%Z).
Proof.
  unfold Math_round. repeat apply conj.
  - intros x y Hxy. apply Qfloor_resp_le. lra.
  - intros n.
    assert (Hlo : (inject_Z n <= inject_Z n + (1 # 2))%Q) by lra.
    assert (Hhi : (inject_Z n + (1 # 2) < inject_Z (n + 1))%Q).
    { rewrite inject_Z_plus. change (inject_Z 1) with 1%Q. lra. }
    pose proof (Qfloor_resp_le _ _ Hlo) as H1. rewrite Qfloor_Z in H1.
    pose proof (Qfloor_le (inject_Z n + (1 # 2))) as H2.
    assert (H3 : (inject_Z (Qfloor (inject_Z n + (1 # 2)))
                  < inject_Z (n + 1))%Q) by lra.
    rewrite <- Zlt_Qlt in H3. lia.
  - intros n.
    assert (Heq : (inject_Z n + (1 # 2) + (1 # 2) == inject_Z (n + 1))%Q).
    { rewrite inject_Z_plus. change (inject_Z 1) with 1%Q. ring. }
    rewrite (Qfloor_comp _ _ Heq). apply Qfloor_Z.
Qed.

End Properties.

(** * Instances *)

Lemma fetch_failure_keeps_data_and_sets_one_error_witness :
  nth_error (pending sample_fetching) 0 = Some (FetchWeatherAwait ByEffect) /\
  exists c' ops,
    step sample_key sample_fetching
         (WeatherResponses 0 (Fulfilled sample_weather) Rejected) = Some c' /\
    trace c' = trace sample_fetching ++ ops /\
    writes_data ops = false /\
    errors_set ops = ["Failed to fetch weather data"] /\
    requests ops = [] /\
    State.weather (st c') = State.weather (st sample_fetching) /\
    State.forecast (st c') = State.forecast (st sample_fetching) /\
    State.error (st c') = "Failed to fetch weather data" /\
    State.loading (st c') = false.
Proof.
  split; [reflexivity|].
  apply (fetch_failure_keeps_data_and_sets_one_error sample_key
           sample_fetching 0 ByEffect (Fulfilled sample_weather) Rejected).
  - reflexivity.
  - right. reflexivity.
Defined.

Lemma render_loading_before_error_before_data_witness :
  WeatherApp (State.mk (Some sample_weather) (Some sample_forecast)
                       "" metric true "Location not found")
  = Some BeatLoader /\
  WeatherApp (State.mk (Some sample_weather) (Some sample_forecast)
                       "" metric false "Location not found")
  = Some (ErrorDiv "Location not found").
Proof.
  split.
  - apply (proj1 (render_loading_before_error_before_data
                    (State.mk (Some sample_weather) (Some sample_forecast)
                              "" metric true "Location not found"))).
    reflexivity.
  - apply (proj2 (render_loading_before_error_before_data
                    (State.mk (Some sample_weather) (Some sample_forecast)
                              "" metric false "Location not found")));
      reflexivity.
Defined.

Lemma combined_fetch_sends_coordinates_and_unit_then_sets_both_witness :
  fetch_invocation sample_clicked (PositionSuccess 0 sample_lat sample_lon)
  = Some (0%nat, metric, sample_lat, sample_lon, ByEffect) /\
  nth_error (pending sample_two_fetches) 1 = Some (FetchWeatherAwait ByEffect)
  /\
  (exists c1,
      step sample_key sample_clicked (PositionSuccess 0 sample_lat sample_lon)
      = Some c1 /\
      trace c1
      = trace sample_clicked ++
        [OpSetLoading true;
         OpAxiosGet (weather_url sample_lat sample_lon metric sample_key);
         OpAxiosGet (forecast_url sample_lat sample_lon metric sample_key)]) /\
  (exists c2,
      step sample_key sample_two_fetches
           (WeatherResponses 1 (Fulfilled sample_weather)
                               (Fulfilled sample_forecast)) = Some c2 /\
      State.weather (st c2) = Some sample_weather /\
      State.forecast (st c2) = Some sample_forecast).
Proof.
  split; [reflexivity|]. split; [reflexivity|].
  pose proof (combined_fetch_sends_coordinates_and_unit_then_sets_both
                sample_key) as (Hcall & Hdone & _).
  split.
  - destruct (Hcall sample_clicked (PositionSuccess 0 sample_lat sample_lon)
                    0%nat metric sample_lat sample_lon ByEffect eq_refl)
      as (c1 & Hstep & Htrace & _).
    exists c1. split; assumption.
  - destruct (Hdone sample_two_fetches 1%nat ByEffect sample_weather
                    sample_forecast eq_refl)
      as (c2 & Hstep & _ & _ & Hw & Hf & _).
    exists c2. repeat split; assumption.
Defined.

(** C3, as the specification words it, fails.  After one click on the unit
    button the position asked for by the first render arrives: its fetch
    goes out with [units=metric] while the state holds imperial. *)
Lemma fetch_can_send_a_unit_that_is_not_active :
  ~ fetch_sends_active_unit sample_key.
Proof.
  intro H.
  assert (Hr : reachable sample_key sample_clicked)
    by (exists [ClickUnit]; reflexivity).
  specialize (H sample_clicked (PositionSuccess 0 sample_lat sample_lon)
                0%nat metric sample_lat sample_lon ByEffect _
                Hr eq_refl eq_refl).
  vm_compute in H. discriminate H.
Qed.

Lemma search_without_match_aborts_witness :
  nth_error (pending sample_searching) 1 = Some (HandleSearchAwait metric) /\
  exists c',
    step sample_key sample_searching (GeoResponse 1 (Fulfilled []))
    = Some c' /\
    trace c' = trace sample_searching ++ [OpSetError "Location not found";
                                          OpSetLoading false] /\
    requests (trace c') = requests (trace sample_searching) /\
    pending c' = remove_nth 1 (pending sample_searching) /\
    State.weather (st c') = State.weather (st sample_searching) /\
    State.forecast (st c') = State.forecast (st sample_searching) /\
    State.error (st c') = "Location not found" /\
    WeatherApp (st c') = Some (ErrorDiv "Location not found").
Proof.
  split; [reflexivity|].
  apply (search_without_match_aborts sample_key sample_searching 1 metric).
  reflexivity.
Defined.



(** The same state, read off the screen: 20.5 metric degrees shown as
    "21°F". *)
Example stale_reading_text :
  match WeatherApp (st (onClickUnit metric sample_shown)) with
  | Some (Page _ (Some d)) => Text_string (temperature d)
  | _ => None
  end = Some "21°F".
Proof. reflexivity. Qed.

Lemma displayed_temperature_is_rounded_with_unit_suffix_witness :
  well_formed sample_weather = true /\
  forallb well_formed (slice0 5 (ForecastData.list sample_forecast)) = true /\
  exists form d,
    WeatherApp sample_ready = Some (Page form (Some d)) /\
    Text_string (temperature d) = Some "21°C" /\
    exists tile,
      nth_error (tiles d) 2 = Some tile /\
      Text_string (tile_temp tile) = Some "20°C".
Proof.
  split; [reflexivity|]. split; [reflexivity|].
  destruct (displayed_temperature_is_rounded_with_unit_suffix
              sample_ready sample_weather sample_forecast
              eq_refl eq_refl eq_refl eq_refl eq_refl eq_refl)
    as (form & d & Hv & (rest & _ & _ & Ht) & _ & _ & Htiles).
  destruct (Htiles 2%nat (sample_day 1700032400 (79 # 4)) ltac:(lia) eq_refl)
    as (tile & Hnth & (rest' & _ & _ & Htile)).
  exists form, d. split; [exact Hv|].
  split; [apply Ht; vm_compute; discriminate|].
  exists tile. split; [exact Hnth|].
  apply Htile. vm_compute. discriminate.
Defined.

Lemma first_five_entries_become_tiles_in_order_witness :
  (5 <= length (ForecastData.list sample_forecast))%nat /\
  exists form d,
    WeatherApp sample_ready = Some (Page form (Some d)) /\
    length (tiles d) = 5%nat /\
    exists tile,
      nth_error (tiles d) 4 = Some tile /\
      ForecastDay (sample_day 1700054000 (33 # 2)) metric = Some tile.
Proof.
  split; [simpl; lia|].
  destruct (first_five_entries_become_tiles_in_order
              sample_ready sample_weather sample_forecast
              eq_refl eq_refl eq_refl eq_refl eq_refl eq_refl
              ltac:(simpl; lia))
    as (form & d & Hv & Hlen & Htiles).
  destruct (Htiles 4%nat ltac:(lia)) as (day & tile & Hday & Hnth & Hfd & _).
  exists form, d. split; [exact Hv|]. split; [exact Hlen|].
  exists tile. split; [exact Hnth|].
  simpl in Hday. injection Hday as <-. exact Hfd.
Defined.

Lemma blocked_geolocation_shows_advisory_witness :
  exists c,
    run sample_key mount [ClickUnit; PositionError 1; PositionError 0]
    = Some c /\
    WeatherApp (st c)
    = Some (ErrorDiv
              "Geolocation blocked. Please enable it or search manually.") /\
    requests (trace c) = [] /\
    State.weather (st c) = None /\
    State.forecast (st c) = None.
Proof.
  eexists. split; [reflexivity|].
  apply (proj1 (blocked_geolocation_shows_advisory sample_key)
           [ClickUnit; PositionError 1; PositionError 0]);
    reflexivity.
Defined.

Lemma empty_search_is_noop_witness :
  interactive (st mount) = true /\
  State.location (st mount) = "" /\
  exists c',
    step sample_key mount SubmitForm = Some c' /\
    st c' = st mount /\
    pending c' = pending mount /\
    trace c' = trace mount ++ [OpPreventDefault] /\
    requests (trace c') = requests (trace mount).
Proof.
  split; [reflexivity|]. split; [reflexivity|].
  apply (empty_search_is_noop sample_key mount); reflexivity.
Defined.

(** * Instances of the further properties *)

Lemma geocoding_failure_aborts_witness :
  nth_error (pending sample_searching) 1 = Some (HandleSearchAwait metric) /\
  exists c',
    step sample_key sample_searching (GeoResponse 1 Rejected) = Some c' /\
    WeatherApp (st c') = Some (ErrorDiv "Failed to fetch location").
Proof.
  split; [reflexivity|].
  destruct (geocoding_failure_aborts sample_key sample_searching 1 metric
              eq_refl) as (c' & Hs & _ & _ & _ & _ & Hv).
  exists c'. split; assumption.
Defined.

Lemma fetch_failure_hides_stored_data_witness :
  nth_error (pending sample_fetching) 0 = Some (FetchWeatherAwait ByEffect) /\
  Promise_all (@Rejected WeatherData.t) (Fulfilled sample_forecast) = None /\
  exists c',
    step sample_key sample_fetching
         (WeatherResponses 0 Rejected (Fulfilled sample_forecast)) = Some c' /\
    WeatherApp (st c') = Some (ErrorDiv "Failed to fetch weather data") /\
    State.weather (st c') = Some sample_weather.
Proof.
  split; [reflexivity|]. split; [reflexivity|].
  destruct (fetch_failure_hides_stored_data sample_key sample_fetching 0
              ByEffect Rejected (Fulfilled sample_forecast) eq_refl eq_refl)
    as (c' & Hs & Hv & Hw & _).
  exists c'. repeat split; assumption.
Defined.

Lemma location_and_unit_change_only_by_the_user_witness :
  step sample_key sample_searching (GeoResponse 1 (Fulfilled []))
  = Some (handleSearch_resume sample_key metric (Fulfilled [])
            (wake 1 sample_searching)) /\
  (State.location
     (st (handleSearch_resume sample_key metric (Fulfilled [])
            (wake 1 sample_searching)))
   = "Nowhereville" \/
   GeoResponse 1 (Fulfilled [])
   = Change (State.location
               (st (handleSearch_resume sample_key metric (Fulfilled [])
                      (wake 1 sample_searching))))).
Proof.
  split; [reflexivity|].
  exact (proj1 (location_and_unit_change_only_by_the_user sample_key
                  sample_searching _ (GeoResponse 1 (Fulfilled []))
                  eq_refl)).
Defined.

Lemma payloads_are_never_cleared_witness :
  exists c',
    run sample_key sample_shown
        [ClickUnit; PositionSuccess 0 sample_lat sample_lon;
         WeatherResponses 0 Rejected Rejected] = Some c' /\
    State.weather (st c') <> None /\
    State.forecast (st c') <> None.
Proof.
  eexists. split; [reflexivity|].
  destruct (payloads_are_never_cleared sample_key
              [ClickUnit; PositionSuccess 0 sample_lat sample_lon;
               WeatherResponses 0 Rejected Rejected]
              sample_shown _ eq_refl) as [Hw Hf].
  split; [apply Hw|apply Hf]; discriminate.
Defined.

Lemma error_is_terminal_witness :
  truthy (State.error (st sample_blocked)) = true /\
  exists c',
    run sample_key sample_blocked
        [PositionSuccess 0 sample_lat sample_lon;
         WeatherResponses 0 (Fulfilled sample_weather)
                            (Fulfilled sample_forecast)] = Some c' /\
    truthy (State.error (st c')) = true /\
    interactive (st c') = false /\
    State.location (st c') = State.location (st sample_blocked) /\
    State.unit (st c') = State.unit (st sample_blocked).
Proof.
  split; [reflexivity|].
  eexists. split; [reflexivity|].
  apply (error_is_terminal sample_key
           [PositionSuccess 0 sample_lat sample_lon;
            WeatherResponses 0 (Fulfilled sample_weather)
                               (Fulfilled sample_forecast)]
           sample_blocked); reflexivity.
Defined.

Lemma error_is_one_of_four_messages_witness :
  reachable sample_key sample_blocked /\
  (State.error (st sample_blocked) = "" \/
   In (State.error (st sample_blocked)) error_messages).
Proof.
  assert (Hr : reachable sample_key sample_blocked)
    by (exists [ClickUnit; PositionError 0]; reflexivity).
  split; [exact Hr|].
  exact (error_is_one_of_four_messages sample_key sample_blocked Hr).
Defined.

Lemma sending_a_request_shows_the_loader_witness :
  exists c',
    step sample_key mount (PositionSuccess 0 sample_lat sample_lon) = Some c' /\
    requests (trace c') <> requests (trace mount) /\
    WeatherApp (st c') = Some BeatLoader.
Proof.
  eexists. split; [reflexivity|].
  assert (Hne : requests
                  (trace (fetchWeather sample_key metric sample_lat sample_lon
                            ByEffect (wake 0 mount)))
                <> requests (trace mount))
    by (vm_compute; discriminate).
  split; [exact Hne|].
  exact (sending_a_request_shows_the_loader sample_key mount _
           (PositionSuccess 0 sample_lat sample_lon) eq_refl Hne).
Defined.

Lemma requests_come_in_blocks_witness :
  reachable sample_key sample_fetching /\
  request_blocks sample_key (requests (trace sample_fetching)).
Proof.
  assert (Hr : reachable sample_key sample_fetching).
  { exists [PositionSuccess 0 sample_lat sample_lon;
            WeatherResponses 0 (Fulfilled sample_weather)
                               (Fulfilled sample_forecast);
            ClickUnit; PositionSuccess 0 sample_lat sample_lon].
    reflexivity. }
  split; [exact Hr|].
  exact (requests_come_in_blocks sample_key sample_fetching Hr).
Defined.

Lemma loading_has_an_outstanding_request_witness :
  reachable sample_key sample_two_fetches /\
  State.loading (st sample_two_fetches) = true /\
  existsb is_provider_wait (pending sample_two_fetches) = true.
Proof.
  assert (Hr : reachable sample_key sample_two_fetches).
  { exists [ClickUnit; PositionSuccess 0 sample_lat sample_lon;
            PositionSuccess 0 sample_lat sample_lon].
    reflexivity. }
  split; [exact Hr|]. split; [reflexivity|].
  exact (loading_has_an_outstanding_request sample_key sample_two_fetches
           Hr eq_refl).
Defined.

Lemma one_position_request_per_unit_change_witness :
  reachable sample_key sample_two_fetches /\
  count_ops is_OpGetCurrentPosition (trace sample_two_fetches)
  = S (count_ops is_OpSetUnit (trace sample_two_fetches)).
Proof.
  assert (Hr : reachable sample_key sample_two_fetches).
  { exists [ClickUnit; PositionSuccess 0 sample_lat sample_lon;
            PositionSuccess 0 sample_lat sample_lon].
    reflexivity. }
  split; [exact Hr|].
  exact (one_position_request_per_unit_change sample_key sample_two_fetches
           Hr).
Defined.

Lemma successful_search_uses_first_match_witness :
  interactive (st sample_typed) = true /\
  truthy (State.location (st sample_typed)) = true /\
  exists c3,
    run sample_key sample_typed
        [SubmitForm;
         GeoResponse 1 (Fulfilled [GeoEntry.mk sample_lat sample_lon;
                                   GeoEntry.mk 0 0]);
         WeatherResponses 1 (Fulfilled sample_weather)
                            (Fulfilled sample_forecast)] = Some c3 /\
    requests (trace c3)
    = [geo_direct_url "Nairobi" sample_key;
       weather_url sample_lat sample_lon metric sample_key;
       forecast_url sample_lat sample_lon metric sample_key] /\
    State.weather (st c3) = Some sample_weather /\
    State.loading (st c3) = false.
Proof.
  split; [reflexivity|]. split; [reflexivity|].
  destruct (successful_search_uses_first_match sample_key sample_typed
              (GeoEntry.mk sample_lat sample_lon) [GeoEntry.mk 0 0]
              sample_weather sample_forecast eq_refl eq_refl)
    as (c1 & c2 & c3 & H1 & _ & H2 & H3 & Ht & _ & Hw & _ & Hl & _).
  exists c3. split.
  - change (length (pending sample_typed)) with 1%nat in H2, H3.
    cbn [run]. rewrite H1, H2, H3. reflexivity.
  - rewrite Ht, requests_app. repeat split; assumption.
Defined.

Lemma late_position_fetches_in_the_old_unit_witness :
  interactive (st mount) = true /\
  nth_error (pending mount) 0
  = Some (PositionCallbacks (State.unit (st mount))) /\
  exists c1 c2,
    step sample_key mount ClickUnit = Some c1 /\
    step sample_key c1 (PositionSuccess 0 sample_lat sample_lon) = Some c2 /\
    State.unit (st c2) = imperial /\
    requests (trace c2)
    = requests (trace c1) ++
      [weather_url sample_lat sample_lon metric sample_key;
       forecast_url sample_lat sample_lon metric sample_key].
Proof.
  split; [reflexivity|]. split; [reflexivity|].
  exact (late_position_fetches_in_the_old_unit sample_key mount 0
           sample_lat sample_lon eq_refl eq_refl).
Defined.

Lemma completion_clears_loading_despite_other_frames_witness :
  nth_error (pending sample_two_fetches) 0 = Some (FetchWeatherAwait ByEffect)
  /\
  nth_error (pending sample_two_fetches) 1 = Some (FetchWeatherAwait ByEffect)
  /\
  exists c',
    step sample_key sample_two_fetches
         (WeatherResponses 0 (Fulfilled sample_weather)
                             (Fulfilled sample_forecast)) = Some c' /\
    State.loading (st c') = false /\
    In (FetchWeatherAwait ByEffect) (pending c').
Proof.
  split; [reflexivity|]. split; [reflexivity|].
  apply (completion_clears_loading_despite_other_frames sample_key
           sample_two_fetches 0 1 ByEffect (FetchWeatherAwait ByEffect)
           (Fulfilled sample_weather) (Fulfilled sample_forecast));
    [reflexivity | reflexivity | lia].
Defined.

Lemma render_throws_exactly_on_missing_conditions_witness :
  WeatherApp (State.mk (Some sample_weather) (Some sample_broken_forecast)
                       "" metric false "") = None /\
  WeatherApp (State.mk (Some sample_weather)
                       (Some (ForecastData.mk
                                (ForecastData.list sample_forecast
                                   ++ [sample_bare_day])
                                (City.mk "Nairobi" "KE")))
                       "" metric false "") <> None.
Proof.
  split.
  - apply (proj2 (render_throws_exactly_on_missing_conditions
                    (State.mk (Some sample_weather)
                              (Some sample_broken_forecast)
                              "" metric false "")
                    sample_weather sample_broken_forecast
                    eq_refl eq_refl eq_refl eq_refl)).
    right. reflexivity.
  - intros Hnone.
    apply (proj1 (render_throws_exactly_on_missing_conditions
                    (State.mk (Some sample_weather)
                              (Some (ForecastData.mk
                                       (ForecastData.list sample_forecast
                                          ++ [sample_bare_day])
                                       (City.mk "Nairobi" "KE")))
                              "" metric false "")
                    sample_weather _ eq_refl eq_refl eq_refl eq_refl))
      in Hnone.
    destruct Hnone as [H|H]; discriminate H.
Defined.

Lemma tiles_number_min_of_five_and_list_length_witness :
  exists form d,
    WeatherApp (State.mk (Some sample_weather) (Some sample_short_forecast)
                         "" imperial false "")
    = Some (Page form (Some d)) /\
    length (tiles d) = 2%nat.
Proof.
  eexists. eexists. split; [reflexivity|].
  apply (tiles_number_min_of_five_and_list_length
           (State.mk (Some sample_weather) (Some sample_short_forecast)
                     "" imperial false "")
           _ _ sample_short_forecast eq_refl eq_refl).
Defined.

Lemma two_clicks_restore_the_unit_witness :
  interactive (st sample_shown) = true /\
  exists c1 c2,
    step sample_key sample_shown ClickUnit = Some c1 /\
    interactive (st c1) = true /\
    step sample_key c1 ClickUnit = Some c2 /\
    st c2 = st sample_shown /\
    pending c2 = [PositionCallbacks imperial; PositionCallbacks metric].
Proof.
  split; [reflexivity|].
  exact (two_clicks_restore_the_unit sample_key sample_shown eq_refl).
Defined.

Lemma shown_figure_monotone_and_half_up_witness :
  ((41 # 2) <= 21)%Q /\
  (Math_round (41 # 2) <= Math_round 21)%Z /\
  Math_round (inject_Z (-3) + (1 # 2)) = (-3 + 1)%Z.
Proof.
  assert (Hle : ((41 # 2) <= 21)%Q) by (vm_compute; discriminate).
  split; [exact Hle|]. split.
  - exact (proj1 shown_figure_monotone_and_half_up (41 # 2) 21 Hle).
  - exact (proj2 (proj2 shown_figure_monotone_and_half_up) (-3)%Z).
Defined.

(** The search text reaches the URL as typed: a '#' in it cuts the query
    short for whoever parses the URL. *)
Example geocoding_url_is_not_encoded :
  Text_string (geo_direct_url "Paris#x" sample_key)
  = Some "https://api.openweathermap.org/geo/1.0/direct?q=Paris#x&limit=1&appid=demo-key".
Proof. reflexivity. Qed.
